(** * DeepAvatar: the real-time frame pipeline

    A shallow embedding of the control logic of the server
    ([server/app.py], [server/server_utils/face_detector.py],
    [server/server_utils/logger.py], [server/server_utils/preprocessor.py],
    [server/model_wrapper.py]) and the properties of its specification.

    Conventions of the embedding:
    - Python [int] is [Z]; Python [float] (clock readings, latencies,
      detector coordinates and confidences) is an exact rational [Qc],
      so every float operation is modelled without rounding error;
    - a method mutating [self] is a function returning the new object,
      paired with the returned value when there is one;
    - results of the external collaborators (the MTCNN network, the image
      codecs, [cv2.resize], the reconstruction model, [np.round] and
      [np.random], the wall clock, [psutil]) are explicit arguments of
      the function that consults them. *)

From Stdlib Require Import ZArith QArith Qcanon String Ascii List Bool Lia.
Import ListNotations.

Local Open Scope Z_scope.

(** ** Numeric helpers *)

(** A float literal with an integral value. *)
Definition fl (z : Z) : Qc := Q2Qc (inject_Z z).

(** [ndarray.astype(int)] and [int(x)] on a float: truncation toward zero. *)
Definition astype_int (q : Qc) : Z := Z.quot (Qnum q) (Zpos (Qden q)).

Definition Qc_leb (a b : Qc) : bool :=
  match (a ?= b)%Qc with Gt => false | _ => true end.

Definition Qc_min (a b : Qc) : Qc := if Qc_leb a b then a else b.
Definition Qc_max (a b : Qc) : Qc := if Qc_leb a b then b else a.

(** ** Exceptions *)

Inductive exn :=
| ZeroDivisionError
| Cv2Error                        (* raised by OpenCV *)
| ModelError (msg : string).      (* raised by the reconstruction model *)

(** ** Frames and bounding boxes *)

(** A decoded frame, seen through [frame.shape]: rows, columns, channels
    (natural numbers, as the dimensions of an array are). *)
Record Frame := mkFrame { rows : N; cols : N; channels : N }.

(** [h, w = frame.shape[:2]] and [frame.shape[2]] as Python integers. *)
Definition shape_h (frame : Frame) : Z := Z.of_N (rows frame).
Definition shape_w (frame : Frame) : Z := Z.of_N (cols frame).
Definition shape_c (frame : Frame) : Z := Z.of_N (channels frame).

(** [Tuple[int, int, int, int]], read [(x1, y1, x2, y2)]. *)
Definition BBox : Type := Z * Z * Z * Z.

(** ** face_detector.py *)

Module FaceDetector.

(** What [self.detector.detect(frame)] hands back: it raises, or it
    returns [(boxes, probs)] where [boxes] is [None] or an array of rows
    of four floats. *)
Inductive mtcnn_result :=
| DetectRaises
| DetectReturns (boxes : option (list (Qc * Qc * Qc * Qc))) (probs : list Qc).

Record t := mk {
  min_confidence : Qc;
  last_bbox : option BBox;
  tracking_active : bool;
  frames_since_detection : Z
}.

Definition __init__ (min_conf : Qc) : t :=
  {| min_confidence := min_conf;
     last_bbox := None;
     tracking_active := false;
     frames_since_detection := 0 |}.

(** The clamp of one coordinate: [max(0, min(x, n - 1))]. *)
Definition clamp (x n : Z) : Z := Z.max 0 (Z.min x (n - 1)).

Definition _detect_with_mtcnn (self : t) (frame : Frame) (out : mtcnn_result)
  : option BBox :=
  match out with
  | DetectRaises => None
  | DetectReturns None _ => None
  | DetectReturns (Some []) _ => None
  | DetectReturns (Some (_ :: _)) [] => None          (* probs[0]: IndexError *)
  | DetectReturns (Some ((bx1, by1, bx2, by2) :: _)) (p0 :: _) =>
      if Qc_leb (min_confidence self) p0 then
        let x1 := astype_int bx1 in
        let y1 := astype_int by1 in
        let x2 := astype_int bx2 in
        let y2 := astype_int by2 in
        let h := shape_h frame in
        let w := shape_w frame in
        Some (clamp x1 w, clamp y1 h, clamp x2 w, clamp y2 h)
      else None
  end.

Definition _track_face (self : t) (frame : Frame) : option BBox :=
  match last_bbox self with
  | None => None
  | Some (x1, y1, x2, y2) =>
      let h := shape_h frame in
      let w := shape_w frame in
      if (x2 >? w) || (y2 >? h) || (x1 <? 0) || (y1 <? 0)
      then None
      else last_bbox self
  end.

(** The tail of [detect_face]: "Run full face detection". *)
Definition full_detection (self : t) (frame : Frame) (out : mtcnn_result)
  : option BBox * t :=
  match _detect_with_mtcnn self frame out with
  | Some bbox =>
      (Some bbox,
       {| min_confidence := min_confidence self;
          last_bbox := Some bbox;
          tracking_active := true;
          frames_since_detection := 0 |})
  | None =>
      (None,
       {| min_confidence := min_confidence self;
          last_bbox := last_bbox self;
          tracking_active := false;
          frames_since_detection := frames_since_detection self |})
  end.

Definition is_Some {A} (o : option A) : bool :=
  match o with Some _ => true | None => false end.

Definition detect_face (self : t) (frame : Frame) (use_tracking : bool)
           (out : mtcnn_result) : option BBox * t :=
  if use_tracking && tracking_active self && is_Some (last_bbox self) then
    match _track_face self frame with
    | Some bbox =>
        (Some bbox,
         {| min_confidence := min_confidence self;
            last_bbox := last_bbox self;
            tracking_active := tracking_active self;
            frames_since_detection := frames_since_detection self + 1 |})
    | None => full_detection self frame out
    end
  else full_detection self frame out.

Definition should_redetect (self : t) (redetect_interval : Z) : bool :=
  frames_since_detection self >=? redetect_interval.

Definition reset_tracking (self : t) : t :=
  {| min_confidence := min_confidence self;
     last_bbox := None;
     tracking_active := false;
     frames_since_detection := 0 |}.

(** Length of the slice [a:b] of an axis of [n] entries (negative
    indices count from the end, everything is clipped to the axis). *)
Definition slice_index (i n : Z) : Z :=
  if i <? 0 then Z.max 0 (i + n) else Z.min i n.

Definition slice_len (a b n : Z) : Z :=
  Z.max 0 (slice_index b n - slice_index a n).

(** The array [face_roi = frame[y1:y2, x1:x2]] of [extract_face_roi], after
    the box has been padded and cut to the frame (only its shape is
    kept). *)
Definition face_roi (frame : Frame) (bbox : BBox) (padding : Qc) : Frame :=
  let '(x1, y1, x2, y2) := bbox in
  let w := x2 - x1 in
  let h := y2 - y1 in
  let pad_w := astype_int (fl w * padding)%Qc in
  let pad_h := astype_int (fl h * padding)%Qc in
  let x1 := Z.max 0 (x1 - pad_w) in
  let y1 := Z.max 0 (y1 - pad_h) in
  let x2 := Z.min (shape_w frame) (x2 + pad_w) in
  let y2 := Z.min (shape_h frame) (y2 + pad_h) in
  mkFrame (Z.to_N (slice_len y1 y2 (shape_h frame)))
          (Z.to_N (slice_len x1 x2 (shape_w frame)))
          (channels frame).

(** [extract_face_roi]: [None] when the padded crop is empty; otherwise
    whatever [cv2.resize(face_roi, (target_size, target_size), ...)]
    does with the crop. OpenCV returns the resized image or raises (a
    target size that is not positive or does not fit a C int, more than
    512 channels, no memory); [cv2_resize] is its outcome for a crop of
    the given shape and a target size. *)
Definition extract_face_roi (cv2_resize : Frame -> Z -> exn + Frame)
           (frame : Frame) (bbox : BBox)
           (target_size : Z) (padding : Qc) : exn + option Frame :=
  let face_roi := face_roi frame bbox padding in
  let size := shape_h face_roi * shape_w face_roi * shape_c face_roi in
  if size =? 0 then inr None
  else
    match cv2_resize face_roi target_size with
    | inl e => inl e
    | inr face_resized => inr (Some face_resized)
    end.

(** A run of calls of [detect_face] with tracking enabled: the state
    after the last one. *)
Fixpoint detect_run (self : t) (calls : list (Frame * mtcnn_result)) : t :=
  match calls with
  | [] => self
  | (frame, out) :: rest =>
      detect_run (snd (detect_face self frame true out)) rest
  end.

End FaceDetector.

(** ** Python arithmetic and numpy reductions used by the logger *)


(** [a % b] on integers: raises on a zero divisor, otherwise the remainder
    with the sign of the divisor. *)
Definition py_mod (a b : Z) : exn + Z :=
  if b =? 0 then inl ZeroDivisionError else inr (a mod b).

(** A numpy [float64] that may have overflowed to infinity by a division
    by zero. *)
Inductive float64 :=
| Finite (q : Qc)
| Infinity.

(** [round(x, ndigits)]: to the nearest multiple of [10^-ndigits], ties to
    the even one. *)
Definition round_half_even (q : Qc) : Z :=
  let n := Qnum q in
  let d := Zpos (Qden q) in
  let f := n / d in
  let r := 2 * (n - f * d) in
  if r <? d then f
  else if d <? r then f + 1
  else if Z.even f then f else f + 1.

Definition py_round (q : Qc) (ndigits : nat) : Qc :=
  let s := fl (10 ^ Z.of_nat ndigits) in
  (fl (round_half_even (q * s)) / s)%Qc.

Definition round64 (x : float64) (ndigits : nat) : float64 :=
  match x with
  | Finite q => Finite (py_round q ndigits)
  | Infinity => Infinity
  end.

Definition np_sum (l : list Qc) : Qc := fold_left Qcplus l (fl 0).

Definition np_mean (l : list Qc) : Qc :=
  (np_sum l / fl (Z.of_nat (length l)))%Qc.

(** [np.min] and [np.max]; the code only applies them to a non-empty
    window. *)
Definition np_min (l : list Qc) : Qc :=
  match l with
  | [] => fl 0
  | x :: rest => fold_left Qc_min rest x
  end.

Definition np_max (l : list Qc) : Qc :=
  match l with
  | [] => fl 0
  | x :: rest => fold_left Qc_max rest x
  end.

(** [1000.0 / m] where [m] is a numpy float: infinity on a zero mean. *)
Definition np_div_1000 (m : Qc) : float64 :=
  if Qeq_bool m (fl 0) then Infinity else Finite (fl 1000 / m)%Qc.

(** ** collections.deque(maxlen=n) *)

Module Deque.

Record t := mk { maxlen : nat; items : list Qc }.

Definition empty (n : nat) : t := mk n [].

(** [append] past [maxlen] discards from the left. *)
Definition append (x : Qc) (d : t) : t :=
  let l := items d ++ [x] in
  mk (maxlen d) (skipn (length l - maxlen d) l).

Definition clear (d : t) : t := mk (maxlen d) [].

Definition len (d : t) : nat := length (items d).

End Deque.

(** ** logger.py *)

Module PerformanceLogger.

(** One line written by [_log_metrics]. *)
Record LogLine := mkLogLine {
  ll_frames : Z;
  ll_fps : float64;
  ll_latency : Qc;
  ll_min : Qc;
  ll_max : Qc;
  ll_dropped : Z;
  ll_cpu : Qc;
  ll_ram : Qc
}.

(** What one call of [end_frame] reads from its surroundings: the clock
    at its start, the clock inside [_log_metrics], and the two [psutil]
    figures. *)
Record Probe := mkProbe {
  now : Qc;
  log_now : Qc;
  cpu : Qc;
  mem : Qc
}.

Record t := mk {
  log_interval : Z;
  frame_times : Deque.t;
  processing_times : Deque.t;
  frame_count : Z;
  dropped_frames : Z;
  start_time : option Qc;
  last_frame_time : Qc;
  last_log_time : Qc;
  logged : list LogLine
}.

Definition __init__ (window_size : nat) (log_interval : Z) (clock : Qc) : t :=
  {| log_interval := log_interval;
     frame_times := Deque.empty window_size;
     processing_times := Deque.empty window_size;
     frame_count := 0;
     dropped_frames := 0;
     start_time := None;
     last_frame_time := clock;
     last_log_time := clock;
     logged := [] |}.

Definition start_frame (clock : Qc) (self : t) : t :=
  mk (log_interval self) (frame_times self) (processing_times self)
     (frame_count self) (dropped_frames self) (Some clock)
     (last_frame_time self) (last_log_time self) (logged self).

Definition _log_metrics (p : Probe) (self : t) : t :=
  if (Deque.len (processing_times self) =? 0)%nat then self
  else
    let avg_processing := np_mean (Deque.items (processing_times self)) in
    let avg_fps :=
      if (0 <? Deque.len (frame_times self))%nat
      then np_div_1000 (np_mean (Deque.items (frame_times self)))
      else Finite (fl 0) in
    let min_latency := np_min (Deque.items (processing_times self)) in
    let max_latency := np_max (Deque.items (processing_times self)) in
    let line := mkLogLine (frame_count self) avg_fps avg_processing
                          min_latency max_latency (dropped_frames self)
                          (cpu p) (mem p) in
    mk (log_interval self) (frame_times self) (processing_times self)
       (frame_count self) (dropped_frames self) (start_time self)
       (last_frame_time self) (log_now p) (logged self ++ [line]).

(** The "Update metrics" step of [end_frame], with [last_frame_time]. *)
Definition update_metrics (success : bool) (processing_time frame_interval
                           end_time : Qc) (self : t) : t :=
  if success then
    mk (log_interval self)
       (Deque.append frame_interval (frame_times self))
       (Deque.append processing_time (processing_times self))
       (frame_count self + 1) (dropped_frames self) (start_time self)
       end_time (last_log_time self) (logged self)
  else
    mk (log_interval self) (frame_times self) (processing_times self)
       (frame_count self) (dropped_frames self + 1) (start_time self)
       end_time (last_log_time self) (logged self).

Definition clear_start (self : t) : t :=
  mk (log_interval self) (frame_times self) (processing_times self)
     (frame_count self) (dropped_frames self) None
     (last_frame_time self) (last_log_time self) (logged self).

(** [end_frame] returns the logger and the exception it raised, if any
    (the modulo by [log_interval] is the only operation that can raise;
    the mutations made before it stay). *)
Definition end_frame (p : Probe) (success : bool) (self : t)
  : t * option exn :=
  match start_time self with
  | None => (self, None)
  | Some started =>
      let end_time := now p in
      let processing_time := ((end_time - started) * fl 1000)%Qc in
      let frame_interval :=
        ((end_time - last_frame_time self) * fl 1000)%Qc in
      let self1 :=
        update_metrics success processing_time frame_interval end_time self in
      match py_mod (frame_count self1) (log_interval self1) with
      | inl e => (self1, Some e)
      | inr r =>
          let self2 := if r =? 0 then _log_metrics p self1 else self1 in
          (clear_start self2, None)
      end
  end.

(** The dictionary returned by [get_current_metrics]. *)
Record Metrics := mkMetrics {
  fps : float64;
  avg_latency : Qc;
  min_latency : Qc;
  max_latency : Qc;
  m_dropped_frames : Z;
  cpu_percent : Qc;
  memory_percent : Qc
}.

Definition get_current_metrics (host_cpu host_mem : Qc) (self : t)
  : Metrics :=
  if (Deque.len (processing_times self) =? 0)%nat then
    mkMetrics (Finite (fl 0)) (fl 0) (fl 0) (fl 0) (dropped_frames self)
              (fl 0) (fl 0)
  else
    let avg_fps :=
      if (0 <? Deque.len (frame_times self))%nat
      then np_div_1000 (np_mean (Deque.items (frame_times self)))
      else Finite (fl 0) in
    mkMetrics (round64 avg_fps 2)
              (py_round (np_mean (Deque.items (processing_times self))) 1)
              (py_round (np_min (Deque.items (processing_times self))) 1)
              (py_round (np_max (Deque.items (processing_times self))) 1)
              (dropped_frames self)
              (py_round host_cpu 1)
              (py_round host_mem 1).

Definition reset (clock1 clock2 : Qc) (self : t) : t :=
  mk (log_interval self)
     (Deque.clear (frame_times self))
     (Deque.clear (processing_times self))
     0 0 (start_time self) clock1 clock2 (logged self).

(** Three frames in a row, each a [start_frame] followed by a successful
    [end_frame]; [s_i] is the clock at the start of frame [i] and [p_i]
    what its [end_frame] reads. *)
Definition record3 (s1 : Qc) (p1 : Probe) (s2 : Qc) (p2 : Probe)
           (s3 : Qc) (p3 : Probe) (self : t) : t :=
  let a := fst (end_frame p1 true (start_frame s1 self)) in
  let b := fst (end_frame p2 true (start_frame s2 a)) in
  fst (end_frame p3 true (start_frame s3 b)).

End PerformanceLogger.

(** ** preprocessor.py *)

Module FramePreprocessor.

(** The values the ['image'] entry of a payload can hold, as far as
    [decode_frame] tells them apart. *)
Inductive pyobj :=
| PyStr (s : string)
| PyBytes (b : list Byte.byte)
| PyOther.

(** The image codecs. [b64_image s] is [base64.b64decode] followed by
    [Image.open], [np.array] and the colour conversion, [None] when any
    of them raises; [imdecode b] is [cv2.imdecode] followed by the
    colour conversion, [None] when the buffer holds no image. *)
Record Codec := mkCodec {
  b64_image : string -> option Frame;
  imdecode : list Byte.byte -> option Frame
}.

Definition base64_marker : string := "base64,".

(** [frame_data.split('base64,')[1]] when the marker occurs: the text
    between its first occurrence and the next one (or the end). *)
Definition strip_data_url (frame_data : string) : string :=
  match index 0 base64_marker frame_data with
  | None => frame_data
  | Some i =>
      let start := (i + String.length base64_marker)%nat in
      let rest :=
        substring start (String.length frame_data - start) frame_data in
      match index 0 base64_marker rest with
      | None => rest
      | Some j => substring 0 j rest
      end
  end.

(** Only a [str] survives the membership test and [b64decode]; for any
    other value one of them raises [TypeError], which the function
    catches. *)
Definition decode_frame (codec : Codec) (frame_data : pyobj)
  : option Frame :=
  match frame_data with
  | PyStr s => b64_image codec (strip_data_url s)
  | _ => None
  end.

Definition decode_binary_frame (codec : Codec) (frame_bytes : list Byte.byte)
  : option Frame :=
  imdecode codec frame_bytes.

End FramePreprocessor.

(** ** concurrent.futures.ThreadPoolExecutor *)

Module ThreadPool.

(** The executor of the standard library: [submit] puts the task on an
    unbounded FIFO queue and returns; at most [max_workers] tasks run at
    a time. A task here is the frame given to [process_frame]. *)
Record t := mk {
  max_workers : nat;
  work_queue : list Frame;
  running : list Frame
}.

Definition create (n : nat) : t := mk n [] [].

Definition submit (task : Frame) (pool : t) : t :=
  mk (max_workers pool) (work_queue pool ++ [task]) (running pool).

(** An idle worker takes the oldest queued task. *)
Definition start_next (pool : t) : option t :=
  match work_queue pool with
  | [] => None
  | task :: rest =>
      if (length (running pool) <? max_workers pool)%nat
      then Some (mk (max_workers pool) rest (running pool ++ [task]))
      else None
  end.

(** The [i]-th running task, and the pool once it has returned. *)
Definition finish (i : nat) (pool : t) : option (Frame * t) :=
  match nth_error (running pool) i with
  | None => None
  | Some task =>
      Some (task,
            mk (max_workers pool) (work_queue pool)
               (firstn i (running pool) ++ skipn (S i) (running pool)))
  end.

(** The executor never runs more tasks than it has workers. *)
Definition pool_bounded (pool : t) : Prop :=
  (length (running pool) <= max_workers pool)%nat.

(** Submitted and not yet completed. *)
Definition in_flight (pool : t) : nat :=
  (length (work_queue pool) + length (running pool))%nat.

End ThreadPool.

(** ** app.py *)

Module App.

Import FramePreprocessor.

(** The entries of [config.yaml] the frame pipeline reads. *)
Record Config := mkConfig {
  frame_skip : Z;
  enable_tracking : bool;
  redetect_interval : Z;
  thread_pool_size : nat;
  input_resolution : Z;
  min_confidence : Qc;
  cfg_log_interval : Z
}.

(** The argument of the ['frame'] event. *)
Inductive payload :=
| Dict (image : option pyobj)     (* a dict, with what ['image'] holds *)
| Bytes (b : list Byte.byte)
| Other.

Record Mesh := mkMesh {
  vertices : list (Qc * Qc * Qc);
  faces : list (Z * Z * Z)
}.

(** [face_model.predict(frame, bbox)]. *)
Inductive predict_result :=
| PredictRaises (e : exn)
| PredictReturns (mesh_data : option Mesh).

Inductive message :=
| Text (s : string)
| StrOf (e : exn)                 (* str(e) *)
| ProcessingError (e : exn).      (* f'Processing error: {str(e)}' *)

Inductive event :=
| error (m : message)
| no_face (m : message)
| mesh_update (mesh : Mesh) (metrics : PerformanceLogger.Metrics)
              (face_detected : bool)
| recalibrated (m : message).

(** The module-level globals. [outbox] collects what [emit] and
    [socketio.emit] send, oldest first. *)
Record Server := mkServer {
  config : Config;
  perf_logger : PerformanceLogger.t;
  face_detector : FaceDetector.t;
  thread_pool : ThreadPool.t;
  frame_counter : Z;
  last_face_bbox : option BBox;
  outbox : list event
}.

Definition initialize_components (cfg : Config) (clock : Qc) : Server :=
  {| config := cfg;
     perf_logger := PerformanceLogger.__init__ 30 (cfg_log_interval cfg) clock;
     face_detector := FaceDetector.__init__ (min_confidence cfg);
     thread_pool := ThreadPool.create (thread_pool_size cfg);
     frame_counter := 0;
     last_face_bbox := None;
     outbox := [] |}.

Definition with_logger (l : PerformanceLogger.t) (s : Server) : Server :=
  mkServer (config s) l (face_detector s) (thread_pool s)
           (frame_counter s) (last_face_bbox s) (outbox s).

Definition with_detector (d : FaceDetector.t) (s : Server) : Server :=
  mkServer (config s) (perf_logger s) d (thread_pool s)
           (frame_counter s) (last_face_bbox s) (outbox s).

Definition with_pool (p : ThreadPool.t) (s : Server) : Server :=
  mkServer (config s) (perf_logger s) (face_detector s) p
           (frame_counter s) (last_face_bbox s) (outbox s).

Definition with_counter (n : Z) (s : Server) : Server :=
  mkServer (config s) (perf_logger s) (face_detector s) (thread_pool s)
           n (last_face_bbox s) (outbox s).

Definition with_bbox (b : option BBox) (s : Server) : Server :=
  mkServer (config s) (perf_logger s) (face_detector s) (thread_pool s)
           (frame_counter s) b (outbox s).

Definition emit (e : event) (s : Server) : Server :=
  mkServer (config s) (perf_logger s) (face_detector s) (thread_pool s)
           (frame_counter s) (last_face_bbox s) (outbox s ++ [e]).

(** A handler or task ends by returning ([None]) or by letting an
    exception out ([Some e]). *)
Definition outcome : Type := Server * option exn.

(** [perf_logger.end_frame(success)] inside a [try] block: [k] is the
    rest of the block, [handler] the [except] clause. *)
Definition end_frame_then (p : PerformanceLogger.Probe) (success : bool)
           (handler : exn -> Server -> outcome) (k : Server -> outcome)
           (s : Server) : outcome :=
  match PerformanceLogger.end_frame p success (perf_logger s) with
  | (l, Some e) => handler e (with_logger l s)
  | (l, None) => k (with_logger l s)
  end.

Definition returns (s : Server) : outcome := (s, None).

(** What [handle_frame] reads from the clock and the host: at
    [start_frame], in the [end_frame] of its [try] block, and in the
    [end_frame] of its [except] clause. *)
Record HandlerEnv := mkHandlerEnv {
  at_start : Qc;
  at_end : PerformanceLogger.Probe;
  at_except : PerformanceLogger.Probe
}.

(** The [except Exception as e] clause of [handle_frame]. An exception
    of its own [end_frame] leaves the handler. *)
Definition handle_frame_except (env : HandlerEnv) (e : exn) (s : Server)
  : outcome :=
  match PerformanceLogger.end_frame (at_except env) false (perf_logger s) with
  | (l, Some e') => (with_logger l s, Some e')
  | (l, None) => returns (emit (error (StrOf e)) (with_logger l s))
  end.

Definition handle_frame (codec : Codec) (env : HandlerEnv) (data : payload)
           (s : Server) : outcome :=
  let s := with_logger
             (PerformanceLogger.start_frame (at_start env) (perf_logger s)) s in
  let s := with_counter (frame_counter s + 1) s in
  let failed := end_frame_then (at_end env) false (handle_frame_except env) in
  let decoded (frame : option Frame) : outcome :=
    match frame with
    | None =>
        failed (fun s =>
                  returns (emit (error (Text "Failed to decode frame")) s)) s
    | Some frame =>
        returns (with_pool (ThreadPool.submit frame (thread_pool s)) s)
    end in
  match py_mod (frame_counter s) (frame_skip (config s)) with
  | inl e => handle_frame_except env e s
  | inr r =>
      if negb (r =? 0) then failed returns s
      else
        match data with
        | Dict (Some image) => decoded (decode_frame codec image)
        | Bytes b => decoded (decode_binary_frame codec b)
        | _ => failed returns s
        end
  end.

(** What [process_frame] reads from its surroundings: the network, the
    model, the host, the clock, and what [cv2.resize] makes of a crop. *)
Record WorkerEnv := mkWorkerEnv {
  detection : FaceDetector.mtcnn_result;
  prediction : predict_result;
  host_cpu : Qc;
  host_mem : Qc;
  w_end : PerformanceLogger.Probe;
  w_except : PerformanceLogger.Probe;
  cv2_resize : Frame -> Z -> exn + Frame
}.

Definition process_frame_except (env : WorkerEnv) (e : exn) (s : Server)
  : outcome :=
  let s := emit (error (ProcessingError e)) s in
  match PerformanceLogger.end_frame (w_except env) false (perf_logger s) with
  | (l, r) => (with_logger l s, r)
  end.

Definition default_padding : Qc := Q2Qc (3 # 10).

Definition process_frame (env : WorkerEnv) (frame : Frame) (s : Server)
  : outcome :=
  let cfg := config s in
  let failed := end_frame_then (w_end env) false (process_frame_except env) in
  let d := face_detector s in
  let d :=
    if enable_tracking cfg
       && FaceDetector.should_redetect d (redetect_interval cfg)
    then FaceDetector.reset_tracking d else d in
  let '(bbox, d) :=
    FaceDetector.detect_face d frame (enable_tracking cfg) (detection env) in
  let s := with_detector d s in
  match bbox with
  | None => failed returns (emit (no_face (Text "No face detected")) s)
  | Some bbox =>
      let s := with_bbox (Some bbox) s in
      match FaceDetector.extract_face_roi (cv2_resize env) frame bbox
                                          (input_resolution cfg)
                                          default_padding with
      | inl e => process_frame_except env e s
      | inr None =>
          failed returns (emit (no_face (Text "Failed to extract face")) s)
      | inr (Some face_roi) =>
          match prediction env with
          | PredictRaises e => process_frame_except env e s
          | PredictReturns None =>
              failed returns (emit (error (Text "Model inference failed")) s)
          | PredictReturns (Some mesh_data) =>
              let metrics :=
                PerformanceLogger.get_current_metrics
                  (host_cpu env) (host_mem env) (perf_logger s) in
              end_frame_then (w_end env) true (process_frame_except env)
                returns (emit (mesh_update mesh_data metrics true) s)
          end
      end
  end.

Definition handle_disconnect (s : Server) : Server :=
  with_detector (FaceDetector.reset_tracking (face_detector s)) s.

Definition handle_recalibrate (s : Server) : Server :=
  emit (recalibrated (Text "Face tracking reset"))
       (with_bbox None
          (with_detector (FaceDetector.reset_tracking (face_detector s)) s)).

(** One atomic step of the server: a ['frame'] event is handled, an idle
    worker takes a queued task, or a running task runs [process_frame]
    and completes. *)
Inductive step (codec : Codec) : Server -> Server -> Prop :=
| step_frame env data s :
    step codec s (fst (handle_frame codec env data s))
| step_start s pool :
    ThreadPool.start_next (thread_pool s) = Some pool ->
    step codec s (with_pool pool s)
| step_finish env i s frame pool :
    ThreadPool.finish i (thread_pool s) = Some (frame, pool) ->
    step codec s (fst (process_frame env frame (with_pool pool s))).

Inductive reachable (codec : Codec) (s0 : Server) : Server -> Prop :=
| reach_init : reachable codec s0 s0
| reach_step s s' :
    reachable codec s0 s -> step codec s s' -> reachable codec s0 s'.

(** Consecutive ['frame'] events, handled one after the other. *)
Fixpoint handle_frames (codec : Codec) (events : list (HandlerEnv * payload))
         (s : Server) : Server :=
  match events with
  | [] => s
  | (env, data) :: rest =>
      handle_frames codec rest (fst (handle_frame codec env data s))
  end.

(** The frame the decoding stage of [handle_frame] obtains from a
    payload, if any. *)
Definition decoded_frame (codec : Codec) (data : payload) : option Frame :=
  match data with
  | Dict (Some image) => decode_frame codec image
  | Bytes b => decode_binary_frame codec b
  | _ => None
  end.

(** The server as [handle_frame] has it when it reaches its stride
    test, and the server after a failed sample taken from there. *)
Definition entered (env : HandlerEnv) (s : Server) : Server :=
  with_counter (frame_counter s + 1)
    (with_logger
       (PerformanceLogger.start_frame (at_start env) (perf_logger s)) s).

Definition failed_sample_at (p : PerformanceLogger.Probe)
           (env : HandlerEnv) (s : Server) : Server :=
  with_logger
    (fst (PerformanceLogger.end_frame p false (perf_logger (entered env s))))
    (entered env s).

Definition failed_sample (env : HandlerEnv) (s : Server) : Server :=
  failed_sample_at (at_end env) env s.

(** The pipeline is configured with a usable stride and log interval
    (both are moduli in the code). *)
Definition well_configured (S : Z) (s : Server) : Prop :=
  frame_skip (config s) = S /\
  PerformanceLogger.log_interval (perf_logger s) <> 0.

Definition dropped (s : Server) : Z :=
  PerformanceLogger.dropped_frames (perf_logger s).

End App.

(** ** The admission policy as the specification words it *)

Module Spec.

(** Frame index [i] is admitted iff [i mod S == 0]. *)
Definition admitted (S i : Z) : bool := i mod S =? 0.

End Spec.

(** ** Concrete inputs used by the examples below *)

Module Examples.

(** A detector that has been tracking the box (10,10)-(50,50) for five
    frames. *)
Definition tracking_detector : FaceDetector.t :=
  FaceDetector.mk (Q2Qc (9 # 10)) (Some (10, 10, 50, 50)) true 5.

Definition fresh_detector : FaceDetector.t :=
  FaceDetector.__init__ (Q2Qc (9 # 10)).

Definition frame_100 : Frame := mkFrame 100%N 100%N 3%N.
Definition frame_40 : Frame := mkFrame 40%N 40%N 3%N.

Definition sees_nothing : FaceDetector.mtcnn_result :=
  FaceDetector.DetectReturns None [].

(** A confident detection that lies wholly to the right of a frame 100
    pixels wide. *)
Definition box_beyond_frame : FaceDetector.mtcnn_result :=
  FaceDetector.DetectReturns
    (Some [(fl 150, fl 20, fl 180, fl 60)]) [Q2Qc (99 # 100)].

(** A confident detection inside a 100 x 100 frame. *)
Definition box_inside_frame : FaceDetector.mtcnn_result :=
  FaceDetector.DetectReturns
    (Some [(Q2Qc (41 # 2), fl 30, Q2Qc (161 # 2), fl 90)]) [Q2Qc (99 # 100)].

(** An OpenCV that resizes every crop to a positive target size. *)
Definition cv2_resize (face_roi : Frame) (target_size : Z) : exn + Frame :=
  if target_size <=? 0 then inl Cv2Error
  else inr (mkFrame (Z.to_N target_size) (Z.to_N target_size)
                    (channels face_roi)).

(** A quiet host and a clock reading for [end_frame]. *)
Definition probe_at (clock : Qc) : PerformanceLogger.Probe :=
  PerformanceLogger.mkProbe clock clock (fl 0) (fl 0).

Definition fresh_logger : PerformanceLogger.t :=
  PerformanceLogger.__init__ 30 30 (fl 0).

(** The logger after one frame that the stride gate skipped:
    [start_frame] at 10 ms, [end_frame(success=False)] at 11 ms. *)
Definition logger_after_skip : PerformanceLogger.t :=
  fst (PerformanceLogger.end_frame (probe_at (Q2Qc (11 # 1000))) false
         (PerformanceLogger.start_frame (Q2Qc (10 # 1000)) fresh_logger)).

(** A codec that knows one image. *)
Definition codec : FramePreprocessor.Codec :=
  FramePreprocessor.mkCodec
    (fun s => if String.eqb s "AAAA" then Some frame_100 else None)
    (fun b => match b with
              | [] => None
              | _ :: _ => Some frame_100
              end).

Definition good_payload : App.payload :=
  App.Dict (Some (FramePreprocessor.PyStr "data:image/jpeg;base64,AAAA")).

Definition bad_payload : App.payload :=
  App.Dict (Some (FramePreprocessor.PyStr "not-an-image")).

(** A server just initialised with frame stride [S] and one worker. *)
Definition server_with_stride (S : Z) : App.Server :=
  App.initialize_components
    (App.mkConfig S true 30 1 256 (Q2Qc (9 # 10)) 30) (fl 0).

Definition handler_env (clock : Qc) : App.HandlerEnv :=
  App.mkHandlerEnv clock (probe_at clock) (probe_at clock).

(** Two well-formed frames arriving 40 ms apart. *)
Definition two_frames : list (App.HandlerEnv * App.payload) :=
  [ (handler_env (Q2Qc (40 # 1000)), good_payload);
    (handler_env (Q2Qc (80 # 1000)), good_payload) ].

End Examples.

(** ** Sequences of calls on one object *)

Module Traces.

(** A call on the detector. *)
Inductive DetectorCall :=
| CallDetect (frame : Frame) (use_tracking : bool)
             (out : FaceDetector.mtcnn_result)
| CallReset.

Definition detector_call (d : FaceDetector.t) (c : DetectorCall)
  : FaceDetector.t :=
  match c with
  | CallDetect frame use_tracking out =>
      snd (FaceDetector.detect_face d frame use_tracking out)
  | CallReset => FaceDetector.reset_tracking d
  end.

Definition detector_calls (d : FaceDetector.t) (calls : list DetectorCall)
  : FaceDetector.t :=
  fold_left detector_call calls d.

Definition box_nonneg (b : BBox) : Prop :=
  let '(x1, y1, x2, y2) := b in 0 <= x1 /\ 0 <= y1 /\ 0 <= x2 /\ 0 <= y2.

(** What every detector state satisfies: tracking is only active with a
    stored box, the counter is not negative, a stored box has no negative
    coordinate. *)
Definition detector_ok (d : FaceDetector.t) : Prop :=
  (FaceDetector.tracking_active d = true -> FaceDetector.last_bbox d <> None) /\
  0 <= FaceDetector.frames_since_detection d /\
  (forall b, FaceDetector.last_bbox d = Some b -> box_nonneg b).

End Traces.

Module LoggerTraces.

(** A call on the performance logger, with what it reads from the clock
    and the host. *)
Inductive LoggerCall :=
| CallStart (clock : Qc)
| CallEnd (p : PerformanceLogger.Probe) (success : bool)
| CallReset (clock1 clock2 : Qc).

Definition logger_call (l : PerformanceLogger.t) (c : LoggerCall)
  : PerformanceLogger.t :=
  match c with
  | CallStart clock => PerformanceLogger.start_frame clock l
  | CallEnd p success => fst (PerformanceLogger.end_frame p success l)
  | CallReset clock1 clock2 => PerformanceLogger.reset clock1 clock2 l
  end.

Definition logger_calls (l : PerformanceLogger.t) (calls : list LoggerCall)
  : PerformanceLogger.t :=
  fold_left logger_call calls l.

(** The two sample windows have the same capacity, hold the same number
    of samples, and no more than their capacity. *)
Definition windows_ok (l : PerformanceLogger.t) : Prop :=
  Deque.maxlen (PerformanceLogger.frame_times l)
  = Deque.maxlen (PerformanceLogger.processing_times l) /\
  length (Deque.items (PerformanceLogger.frame_times l))
  = length (Deque.items (PerformanceLogger.processing_times l)) /\
  (length (Deque.items (PerformanceLogger.processing_times l))
   <= Deque.maxlen (PerformanceLogger.processing_times l))%nat.

(** Frames recorded as successes one after the other; each is given by
    the clock at its [start_frame] and what its [end_frame] reads. *)
Definition record_all (frames : list (Qc * PerformanceLogger.Probe))
           (l : PerformanceLogger.t) : PerformanceLogger.t :=
  fold_left
    (fun l frame =>
       fst (PerformanceLogger.end_frame (snd frame) true
              (PerformanceLogger.start_frame (fst frame) l)))
    frames l.

(** The processing time [end_frame] measures for such a frame, in ms. *)
Definition measured (frame : Qc * PerformanceLogger.Probe) : Qc :=
  ((PerformanceLogger.now (snd frame) - fst frame) * fl 1000)%Qc.

(** The last [n] elements of a list. *)
Definition lastn {A} (n : nat) (l : list A) : list A :=
  skipn (length l - n) l.

End LoggerTraces.

Module Outcomes.

(** The event reports a reconstructed mesh. *)
Definition is_mesh_update (e : App.event) : bool :=
  match e with
  | App.mesh_update _ _ _ => true
  | _ => false
  end.

End Outcomes.

Module Scenarios.

(** A mesh of one triangle. *)
Definition triangle : App.Mesh :=
  App.mkMesh [ (fl 0, fl 0, fl 0); (fl 1, fl 0, fl 0); (fl 0, fl 1, fl 0) ]
             [ (0, 1, 2) ].

(** A worker for which the network finds a face and the model returns
    the triangle, 30 ms after start-up. *)
Definition worker_env : App.WorkerEnv :=
  App.mkWorkerEnv Examples.box_inside_frame
                  (App.PredictReturns (Some triangle))
                  (fl 0) (fl 0)
                  (Examples.probe_at (Q2Qc (30 # 1000)))
                  (Examples.probe_at (Q2Qc (30 # 1000)))
                  Examples.cv2_resize.

(** The server once a first well-formed frame has been queued at stride
    1: its start is pending. *)
Definition server_with_queued_frame : App.Server :=
  fst (App.handle_frame Examples.codec (Examples.handler_env (Q2Qc (10 # 1000)))
                        Examples.good_payload (Examples.server_with_stride 1)).

End Scenarios.

Module Text.

(** The character occurs in the string. *)
Fixpoint mentions (c : ascii) (s : string) : bool :=
  match s with
  | EmptyString => false
  | String a rest => Ascii.eqb a c || mentions c rest
  end.

End Text.

(** ** model_wrapper.py *)

Module FaceModel.

Definition Vertex : Type := (Qc * Qc * Qc)%type.
Definition Triangle : Type := (Z * Z * Z)%type.

(** [self.tddfa(frame, [bbox])]: it raises, or it returns the list of
    parameter vectors and the list of ROI boxes. *)
Inductive tddfa_result :=
| TddfaRaises (e : exn)
| TddfaReturns (param_lst roi_box_lst : list (list Qc)).

(** [self.tddfa.recon_vers([params], [roi_box], dense_flag=True)[0]]: it
    raises, or it is a 3 x N array, kept as its N columns. *)
Inductive recon_result :=
| ReconRaises (e : exn)
| ReconReturns (columns : list Vertex).

(** An entry of the YAML configuration: an integer, or anything else. *)
Inductive yaml_value :=
| YamlInt (z : Z)
| YamlOther.

(** What numpy computes in floating point or draws at random.
    [np.round(vertices, precision)] works entry by entry and keeps the
    shape of the array; it scales by a power of ten in binary floating
    point, which exact rationals do not follow, and it raises on a
    precision it cannot use. [np_round precision] is what it does for a
    given precision: raise, or round each entry. [randn] and
    [randint_raw] are the generators behind [np.random.randn] and
    [np.random.randint], entry by entry. *)
Record Numpy := mkNumpy {
  np_round : yaml_value -> exn + (Qc -> Qc);
  randn : nat -> nat -> Qc;
  randint_raw : nat -> nat -> Z
}.

(** The fields of the wrapper that [predict] reads. [vertex_precision] is
    [config['data']['vertex_precision']], [None] when the lookup raises;
    [tri] is [self.tddfa.bfm.tri], which raises when the loaded object
    has no such attribute. *)
Record t := mk {
  is_loaded : bool;
  has_tddfa : bool;
  vertex_precision : option yaml_value;
  tri : exn + list Triangle
}.

(** The dictionary a mesh is returned as; [fallback] tells whether the
    key ['fallback'] is there. *)
Record MeshDict := mkMeshDict {
  vertices : list Vertex;
  faces : list Triangle;
  num_vertices : Z;
  num_faces : Z;
  fallback : bool
}.

Definition round_vertex (round : Qc -> Qc) (v : Vertex) : Vertex :=
  let '(x, y, z) := v in (round x, round y, round z).

(** [np.random.randint(0, high, ...)]: an entry in [0, high). *)
Definition randint (rnd : Numpy) (high : Z) (i j : nat) : Z :=
  randint_raw rnd i j mod high.

Definition _create_fallback_mesh (rnd : Numpy) : MeshDict :=
  let n_vertices := 1000%nat in
  let n_faces := (n_vertices * 2)%nat in
  {| vertices :=
       map (fun i => ((randn rnd i 0 * fl 50)%Qc,
                      (randn rnd i 1 * fl 50)%Qc,
                      (randn rnd i 2 * fl 50)%Qc))
           (seq 0 n_vertices);
     faces :=
       map (fun i => (randint rnd (Z.of_nat n_vertices) i 0,
                      randint rnd (Z.of_nat n_vertices) i 1,
                      randint rnd (Z.of_nat n_vertices) i 2))
           (seq 0 n_faces);
     num_vertices := Z.of_nat n_vertices;
     num_faces := Z.of_nat n_faces;
     fallback := true |}.

(** Any exception inside the [try] block leads to the fallback mesh: a
    failing reconstruction, the [min()] of an empty vertex array in the
    log line, a failing [self.tddfa.bfm.tri], a failing configuration
    lookup, a failing [np.round]. *)
Definition _generate_mesh_from_params (self : t) (recon : recon_result)
           (rnd : Numpy) : MeshDict :=
  match recon with
  | ReconRaises _ => _create_fallback_mesh rnd
  | ReconReturns [] => _create_fallback_mesh rnd
  | ReconReturns columns =>
      match tri self with
      | inl _ => _create_fallback_mesh rnd
      | inr tri =>
          match vertex_precision self with
          | None => _create_fallback_mesh rnd
          | Some precision =>
              match np_round rnd precision with
              | inl _ => _create_fallback_mesh rnd
              | inr round =>
                  {| vertices := map (round_vertex round) columns;
                     faces := tri;
                     num_vertices := Z.of_nat (length columns);
                     num_faces := Z.of_nat (length tri);
                     fallback := false |}
              end
          end
      end
  end.

(** [predict]: [tddfa] is what the network returns for this frame and
    box, [recon_vers] what the reconstruction returns for given
    parameters and ROI. Every exception is caught and gives [None]. *)
Definition predict (self : t) (bbox : option BBox) (tddfa : tddfa_result)
           (recon_vers : list Qc -> list Qc -> recon_result)
           (rnd : Numpy) : option MeshDict :=
  if negb (is_loaded self) || negb (has_tddfa self) then None
  else
    match bbox with
    | None => None
    | Some _ =>
        match tddfa with
        | TddfaRaises _ => None
        | TddfaReturns [] _ => None
        | TddfaReturns (_ :: _) [] => None          (* roi_box_lst[0] *)
        | TddfaReturns (params :: _) (roi_box :: _) =>
            Some (_generate_mesh_from_params self (recon_vers params roi_box)
                                             rnd)
        end
    end.

(** What [process_frame] reads of the returned dictionary. *)
Definition to_mesh (m : MeshDict) : App.Mesh :=
  App.mkMesh (vertices m) (faces m).

(** [face_model.predict(frame, bbox)] as [process_frame] sees it. *)
Definition prediction (self : t) (bbox : BBox) (tddfa : tddfa_result)
           (recon_vers : list Qc -> list Qc -> recon_result)
           (rnd : Numpy) : App.predict_result :=
  App.PredictReturns
    (option_map to_mesh (predict self (Some bbox) tddfa recon_vers rnd)).

(** Every index of a triangle refers to one of [n] vertices. *)
Definition triangle_within (n : Z) (f : Triangle) : Prop :=
  let '(i, j, k) := f in 0 <= i < n /\ 0 <= j < n /\ 0 <= k < n.

End FaceModel.

Module ModelScenarios.

(** A loaded model with one triangle and a precision of one decimal. *)
Definition loaded_model : FaceModel.t :=
  FaceModel.mk true true (Some (FaceModel.YamlInt 1)) (inr [ (0, 1, 2) ]).

(** The same model when the loaded object has no [bfm] attribute. *)
Definition model_without_bfm : FaceModel.t :=
  FaceModel.mk true true (Some (FaceModel.YamlInt 1))
               (inl (ModelError "AttributeError")).

Definition one_face : FaceModel.tddfa_result :=
  FaceModel.TddfaReturns [ [fl 0] ] [ [fl 0] ].

(** A reconstruction of three vertices, and one that raises. *)
Definition recon_ok (_ _ : list Qc) : FaceModel.recon_result :=
  FaceModel.ReconReturns
    [ (Q2Qc (15 # 10), fl 0, fl 0); (fl 1, fl 0, fl 0); (fl 0, fl 1, fl 0) ].

Definition recon_fails (_ _ : list Qc) : FaceModel.recon_result :=
  FaceModel.ReconRaises (ModelError "recon_vers").

(** A numpy that draws zeros, takes an integer precision only, and
    whose rounding finds the entries of the examples already at the
    precision asked for. *)
Definition quiet_numpy : FaceModel.Numpy :=
  FaceModel.mkNumpy
    (fun precision =>
       match precision with
       | FaceModel.YamlInt _ => inr (fun q : Qc => q)
       | FaceModel.YamlOther => inl (ModelError "TypeError")
       end)
    (fun _ _ => fl 0) (fun _ _ => 0).

(** A worker whose model is the wrapper above with a failing
    reconstruction, on a frame where the network finds the box
    (20,30)-(80,90). *)
Definition worker_with_failing_recon : App.WorkerEnv :=
  App.mkWorkerEnv Examples.box_inside_frame
                  (FaceModel.prediction loaded_model (20, 30, 80, 90) one_face
                                        recon_fails quiet_numpy)
                  (fl 0) (fl 0)
                  (Examples.probe_at (Q2Qc (30 # 1000)))
                  (Examples.probe_at (Q2Qc (30 # 1000)))
                  Examples.cv2_resize.

(** A server with stride 2 and a log interval of 0. *)
Definition server_with_zero_log_interval : App.Server :=
  App.initialize_components
    (App.mkConfig 2 true 30 1 256 (Q2Qc (9 # 10)) 0) (fl 0).

End ModelScenarios.

(** ** model_wrapper.py: loading *)

Module ModelLoader.

(** The two places [_get_onnx_model_path] looks for the ONNX file. *)
Inductive onnx_path :=
| InWeights                        (* <TDDFA_DIR>/weights/mb1_120x120.onnx *)
| InModels.                        (* models/mb1_120x120.onnx *)

(** The object a constructor call would build: [TDDFA_ONNX] with the
    path it is given, or [TDDFA] with its [gpu_mode]. *)
Inductive backend :=
| TddfaOnnx (onnx_model_path : option onnx_path)
| TddfaTorch (gpu_mode : bool).

Inductive load_error :=
| FileNotFoundError
| ImportError
| ConstructorError (e : exn).

(** What loading finds on the machine: whether the 3DDFA_V2 modules
    import, which files exist, and whether a constructor call raises. *)
Record Install := mkInstall {
  tddfa_available : bool;
  tddfa_config_found : bool;
  weights_onnx_found : bool;
  models_onnx_found : bool;
  constructor_raises : backend -> option exn
}.

(** [config['model']]: the device, and [use_onnx] when the key is
    there. *)
Record ModelConfig := mkModelConfig {
  cfg_device : string;
  cfg_use_onnx : option bool
}.

Record t := mk {
  device : string;
  use_onnx : bool;
  tddfa : option backend;
  is_loaded : bool
}.

Definition _get_onnx_model_path (inst : Install) (self : t)
  : option onnx_path * t :=
  if weights_onnx_found inst then (Some InWeights, self)
  else if models_onnx_found inst then (Some InModels, self)
  else (None, mk (device self) false (tddfa self) (is_loaded self)).

(** The branch is chosen on [use_onnx] before the path is looked up. *)
Definition _load_model (inst : Install) (self : t) : load_error + t :=
  if negb (tddfa_available inst) then inl ImportError
  else if use_onnx self then
    let '(path, self) := _get_onnx_model_path inst self in
    match constructor_raises inst (TddfaOnnx path) with
    | Some e => inl (ConstructorError e)
    | None =>
        inr (mk (device self) (use_onnx self) (Some (TddfaOnnx path)) true)
    end
  else
    let gpu_mode := negb (String.eqb (device self) "cpu") in
    match constructor_raises inst (TddfaTorch gpu_mode) with
    | Some e => inl (ConstructorError e)
    | None =>
        inr (mk (device self) (use_onnx self) (Some (TddfaTorch gpu_mode))
                true)
    end.

Definition __init__ (inst : Install) (cfg : ModelConfig) : load_error + t :=
  let self :=
    mk (cfg_device cfg)
       (match cfg_use_onnx cfg with Some b => b | None => true end)
       None false in
  if negb (tddfa_config_found inst) then inl FileNotFoundError
  else _load_model inst self.

(** The ['backend'] entry of [get_info]. *)
Definition get_info_backend (self : t) : string :=
  if use_onnx self then "ONNX" else "PyTorch".

Definition onnx_requested (cfg : ModelConfig) : bool :=
  match cfg_use_onnx cfg with Some b => b | None => true end.

End ModelLoader.

Module LoaderScenarios.

(** A machine with the 3DDFA_V2 code but no ONNX file, on which no
    constructor raises. *)
Definition install_without_onnx : ModelLoader.Install :=
  ModelLoader.mkInstall true true false false (fun _ => None).

(** A configuration that names the device only. *)
Definition cpu_config : ModelLoader.ModelConfig :=
  ModelLoader.mkModelConfig "cpu" None.

Definition loaded_without_onnx : ModelLoader.t :=
  ModelLoader.mk "cpu" false (Some (ModelLoader.TddfaOnnx None)) true.

End LoaderScenarios.

Module ServerInvariant.

(** What holds of the server in every state it can reach from start-up
    with configuration [cfg]. *)
Definition server_ok (cfg : App.Config) (s : App.Server) : Prop :=
  App.config s = cfg /\
  0 <= App.frame_counter s /\
  Traces.detector_ok (App.face_detector s) /\
  FaceDetector.min_confidence (App.face_detector s) = App.min_confidence cfg /\
  LoggerTraces.windows_ok (App.perf_logger s) /\
  Deque.maxlen (PerformanceLogger.processing_times (App.perf_logger s))
  = 30%nat /\
  PerformanceLogger.log_interval (App.perf_logger s)
  = App.cfg_log_interval cfg /\
  0 <= PerformanceLogger.frame_count (App.perf_logger s) /\
  0 <= PerformanceLogger.dropped_frames (App.perf_logger s) /\
  ThreadPool.pool_bounded (App.thread_pool s).

(** The part of [server_ok] that speaks of the logger. *)
Definition logger_ok (interval : Z) (l : PerformanceLogger.t) : Prop :=
  LoggerTraces.windows_ok l /\
  Deque.maxlen (PerformanceLogger.processing_times l) = 30%nat /\
  PerformanceLogger.log_interval l = interval /\
  0 <= PerformanceLogger.frame_count l /\
  0 <= PerformanceLogger.dropped_frames l.

End ServerInvariant.

(** * Proof automation *)

(** Case analysis on every [match] of the goal, outermost first: used for
    the facts that hold along all paths of a handler. *)
Ltac case_matches :=
  repeat match goal with
         | |- context [match ?x with _ => _ end] => destruct x
         end.

(** * Properties of the tracking state machine (face_detector.py) *)

Section FaceDetectorFacts.

Import FaceDetector.

Lemma clamp_bounds x n : 1 <= n -> 0 <= clamp x n < n.
Proof. unfold clamp; lia. Qed.

Lemma clamp_nonneg x n : 0 <= clamp x n.
Proof. unfold clamp; lia. Qed.

Lemma clamp_le x n : 0 <= n -> clamp x n <= n.
Proof. unfold clamp; lia. Qed.

Lemma clamp_fits_w x (frame : Frame) :
  (clamp x (shape_w frame) >? shape_w frame) = false.
Proof.
  rewrite Z.gtb_ltb. apply Z.ltb_ge. unfold clamp, shape_w. lia.
Qed.

Lemma clamp_fits_h x (frame : Frame) :
  (clamp x (shape_h frame) >? shape_h frame) = false.
Proof.
  rewrite Z.gtb_ltb. apply Z.ltb_ge. unfold clamp, shape_h. lia.
Qed.

Lemma clamp_fits_below x n : (clamp x n <? 0) = false.
Proof. apply Z.ltb_ge. unfold clamp. lia. Qed.

Lemma clamp_lt_iff a b n :
  clamp a n < clamp b n <-> a < b /\ a < n - 1 /\ 0 < b /\ 1 < n.
Proof. unfold clamp; lia. Qed.

(** A successful detection comes from a first row of [boxes] and reads
    as the clamp of its truncated coordinates. *)
Lemma detect_some_inv self frame out bbox :
  _detect_with_mtcnn self frame out = Some bbox ->
  exists bx1 by1 bx2 by2 rest probs,
    out = DetectReturns (Some ((bx1, by1, bx2, by2) :: rest)) probs /\
    bbox = (clamp (astype_int bx1) (shape_w frame),
            clamp (astype_int by1) (shape_h frame),
            clamp (astype_int bx2) (shape_w frame),
            clamp (astype_int by2) (shape_h frame)).
Proof.
  unfold _detect_with_mtcnn.
  destruct out as [|[[|[[[bx1 by1] bx2] by2] rest]|] [|p0 probs]];
    try discriminate.
  destruct (Qc_leb _ _); [|discriminate].
  intros H; injection H as <-.
  now exists bx1, by1, bx2, by2, rest, (p0 :: probs).
Qed.

(** [_track_face] reads nothing of the detector but [last_bbox]. *)
Lemma track_face_last_bbox d d' frame :
  last_bbox d = last_bbox d' -> _track_face d frame = _track_face d' frame.
Proof. unfold _track_face; now intros ->. Qed.

Lemma track_face_some d frame bbox :
  _track_face d frame = Some bbox -> last_bbox d = Some bbox.
Proof.
  unfold _track_face.
  destruct (last_bbox d) as [[[[x1 y1] x2] y2]|]; [|discriminate].
  now destruct (_ || _).
Qed.

(** A frame served by tracked reuse: the box is returned, the counter
    goes up by one, the rest of the state stays. *)
Lemma detect_face_tracked d frame out :
  tracking_active d = true ->
  _track_face d frame <> None ->
  detect_face d frame true out
  = (last_bbox d,
     mk (min_confidence d) (last_bbox d) true (frames_since_detection d + 1)).
Proof.
  intros Hact Htrack. unfold detect_face. rewrite Hact.
  destruct (_track_face d frame) as [bbox|] eqn:E; [|congruence].
  apply track_face_some in E. rewrite E. reflexivity.
Qed.

Lemma detect_run_tracked calls : forall d,
  tracking_active d = true ->
  Forall (fun c => _track_face d (fst c) <> None) calls ->
  detect_run d calls
  = mk (min_confidence d) (last_bbox d) true
       (frames_since_detection d + Z.of_nat (length calls)).
Proof.
  induction calls as [|[frame out] calls IH]; intros d Hact Hall.
  - cbn. rewrite Z.add_0_r. destruct d; cbn in *; now subst.
  - inversion Hall as [|c l Hhd Htl]; subst; cbn [fst] in Hhd.
    cbn [detect_run]. rewrite detect_face_tracked by assumption.
    cbn [snd]. rewrite IH; cbn.
    + f_equal. lia.
    + reflexivity.
    + eapply Forall_impl; [|exact Htl]. intros c Hc.
      now rewrite (track_face_last_bbox _ d).
Qed.

(** C3. From the EMPTY state a successful detection gives TRACKING with
    [frames_since_detection = 0]; every later frame served by tracked
    reuse adds exactly one to the counter; and [should_redetect R] is
    true iff the counter is at least [R], hence first true when the
    counter reaches [R]. *)
Theorem C3_tracking_transitions :
  forall self frame use_tracking out bbox,
    last_bbox self = None ->
    tracking_active self = false ->
    _detect_with_mtcnn self frame out = Some bbox ->
    let tracking := snd (detect_face self frame use_tracking out) in
    fst (detect_face self frame use_tracking out) = Some bbox /\
    tracking_active tracking = true /\
    last_bbox tracking = Some bbox /\
    frames_since_detection tracking = 0 /\
    (forall d f o,
        tracking_active d = true -> _track_face d f <> None ->
        frames_since_detection (snd (detect_face d f true o))
        = frames_since_detection d + 1) /\
    (forall d R,
        should_redetect d R = true <-> frames_since_detection d >= R) /\
    (forall calls,
        Forall (fun c => _track_face tracking (fst c) <> None) calls ->
        let after := detect_run tracking calls in
        frames_since_detection after = Z.of_nat (length calls) /\
        tracking_active after = true /\
        last_bbox after = Some bbox /\
        (forall R, should_redetect after R = true
                   <-> Z.of_nat (length calls) >= R)).
Proof.
  intros self frame ut out bbox Hbox Hact Hdet tracking.
  assert (E : detect_face self frame ut out
              = (Some bbox, mk (min_confidence self) (Some bbox) true 0)).
  { unfold detect_face, full_detection.
    rewrite Hact, Hdet, andb_false_r. reflexivity. }
  subst tracking. rewrite E. cbn [fst snd].
  assert (Hre : forall d R,
             should_redetect d R = true <-> frames_since_detection d >= R).
  { intros d R. unfold should_redetect. rewrite Z.geb_le. lia. }
  split; [reflexivity|]. split; [reflexivity|]. split; [reflexivity|].
  split; [reflexivity|]. split; [|split; [exact Hre|]].
  - intros d f o Ha Ht. now rewrite detect_face_tracked.
  - intros calls Hcalls. cbv zeta.
    rewrite detect_run_tracked by (try assumption; reflexivity). cbn.
    split; [reflexivity|]. split; [reflexivity|]. split; [reflexivity|].
    intros R. rewrite Hre. cbn. reflexivity.
Qed.

Lemma C3_tracking_transitions_witness :
  last_bbox Examples.fresh_detector = None /\
  tracking_active Examples.fresh_detector = false /\
  _detect_with_mtcnn Examples.fresh_detector Examples.frame_100
                     Examples.box_inside_frame = Some (20, 30, 80, 90) /\
  frames_since_detection
    (snd (detect_face Examples.fresh_detector Examples.frame_100 true
                      Examples.box_inside_frame)) = 0.
Proof.
  split; [reflexivity|]. split; [reflexivity|]. split; [reflexivity|].
  apply (C3_tracking_transitions
           Examples.fresh_detector Examples.frame_100 true
           Examples.box_inside_frame (20, 30, 80, 90));
    reflexivity.
Defined.

(** C4 as stated fails: a detector tracking (10,10)-(50,50) is given a
    40 x 40 frame, so tracked reuse is refused, and the network finds no
    face. The call returns [None] and only [tracking_active] is cleared:
    the stored box and the counter stay. *)
Lemma C4_failure_keeps_box_and_counter :
  detect_face Examples.tracking_detector Examples.frame_40 true
              Examples.sees_nothing
  = (None, mk (Q2Qc (9 # 10)) (Some (10, 10, 50, 50)) false 5) /\
  ~ (last_bbox (snd (detect_face Examples.tracking_detector Examples.frame_40
                                 true Examples.sees_nothing)) = None /\
     frames_since_detection
       (snd (detect_face Examples.tracking_detector Examples.frame_40
                         true Examples.sees_nothing)) = 0).
Proof.
  split; [reflexivity|]. cbn. intros [H _]. discriminate H.
Qed.

(** C4, amended. When [detect_face] returns no box (the full detection
    ran and failed), [tracking_active] becomes false while [last_bbox]
    and [frames_since_detection] keep their values; the next call,
    whatever its frame and tracking flag, runs the full detection and
    does not reuse the stored box. *)
Theorem C4_failure_deactivates_tracking :
  forall self frame use_tracking out,
    fst (detect_face self frame use_tracking out) = None ->
    let failed := snd (detect_face self frame use_tracking out) in
    tracking_active failed = false /\
    last_bbox failed = last_bbox self /\
    frames_since_detection failed = frames_since_detection self /\
    (forall frame' use_tracking' out',
        detect_face failed frame' use_tracking' out'
        = full_detection failed frame' out' /\
        fst (detect_face failed frame' use_tracking' out')
        = _detect_with_mtcnn failed frame' out').
Proof.
  intros self frame ut out Hnone failed.
  assert (E : detect_face self frame ut out
              = (None, mk (min_confidence self) (last_bbox self) false
                          (frames_since_detection self))).
  { revert Hnone. unfold detect_face, full_detection.
    destruct (ut && tracking_active self && is_Some (last_bbox self)).
    - destruct (_track_face self frame); [discriminate|].
      destruct (_detect_with_mtcnn self frame out); [discriminate|reflexivity].
    - destruct (_detect_with_mtcnn self frame out); [discriminate|reflexivity]. }
  subst failed. rewrite E. cbn [snd tracking_active last_bbox
                                frames_since_detection].
  split; [reflexivity|]. split; [reflexivity|]. split; [reflexivity|].
  intros frame' ut' out'.
  assert (E' : forall d, tracking_active d = false ->
               detect_face d frame' ut' out' = full_detection d frame' out').
  { intros d Hd. unfold detect_face. now rewrite Hd, andb_false_r. }
  rewrite E' by reflexivity. split; [reflexivity|].
  unfold full_detection. now destruct (_detect_with_mtcnn _ frame' out').
Qed.

Lemma C4_failure_deactivates_tracking_witness :
  fst (detect_face Examples.tracking_detector Examples.frame_40 true
                   Examples.sees_nothing) = None /\
  tracking_active
    (snd (detect_face Examples.tracking_detector Examples.frame_40 true
                      Examples.sees_nothing)) = false.
Proof.
  split; [reflexivity|].
  apply (C4_failure_deactivates_tracking
           Examples.tracking_detector Examples.frame_40 true
           Examples.sees_nothing).
  reflexivity.
Defined.

(** The bounds check of [_track_face] depends on the stored box and on
    the height and width of the frame only. *)
Lemma track_face_same_shape d d' frame frame' :
  last_bbox d = last_bbox d' ->
  shape_h frame' = shape_h frame ->
  shape_w frame' = shape_w frame ->
  _track_face d' frame' = _track_face d frame.
Proof. unfold _track_face. now intros -> -> ->. Qed.

(** A box that detection has produced passes the bounds check against
    the frame it was detected on. *)
Lemma detected_box_tracks self frame out bbox d :
  _detect_with_mtcnn self frame out = Some bbox ->
  last_bbox d = Some bbox ->
  _track_face d frame = Some bbox.
Proof.
  intros Hdet Hd.
  destruct (detect_some_inv _ _ _ _ Hdet)
    as (bx1 & by1 & bx2 & by2 & rest & probs & _ & ->).
  unfold _track_face. rewrite Hd.
  rewrite clamp_fits_w, clamp_fits_h, !clamp_fits_below. reflexivity.
Qed.

(** C7. A box that [detect_face] returns for a frame (produced by a
    successful detection on it, or reused after passing the bounds
    check) is the stored tracking box; tracked reuse against any frame of the
    same height and width passes the bounds check and returns that box
    unchanged. When the call ran the detection, the box is the one
    [_detect_with_mtcnn] produced. *)
Theorem C7_detect_store_track_roundtrip :
  forall self frame use_tracking out bbox,
    fst (detect_face self frame use_tracking out) = Some bbox ->
    let stored := snd (detect_face self frame use_tracking out) in
    last_bbox stored = Some bbox /\
    tracking_active stored = true /\
    (tracking_active self = false ->
     _detect_with_mtcnn self frame out = Some bbox) /\
    (forall frame' out',
        shape_h frame' = shape_h frame ->
        shape_w frame' = shape_w frame ->
        _track_face stored frame' = Some bbox /\
        detect_face stored frame' true out'
        = (Some bbox,
           mk (min_confidence stored) (Some bbox) true
              (frames_since_detection stored + 1))).
Proof.
  intros self frame ut out bbox Hret stored.
  assert (H : last_bbox stored = Some bbox /\
              tracking_active stored = true /\
              _track_face stored frame = Some bbox /\
              (tracking_active self = false ->
               _detect_with_mtcnn self frame out = Some bbox)).
  { assert (Hfull : forall b,
              _detect_with_mtcnn self frame out = Some b ->
              let d := mk (min_confidence self) (Some b) true 0 in
              last_bbox d = Some b /\ tracking_active d = true /\
              _track_face d frame = Some b /\
              (tracking_active self = false -> Some b = Some b)).
    { intros b Hb d.
      split; [reflexivity|]. split; [reflexivity|]. split; [|reflexivity].
      now apply (detected_box_tracks self frame out). }
    subst stored. revert Hret. unfold detect_face, full_detection.
    destruct (ut && tracking_active self && is_Some (last_bbox self)) eqn:Hc.
    - destruct (_track_face self frame) as [b|] eqn:Et.
      + cbn [fst snd]. intros [= ->].
        pose proof (track_face_some _ _ _ Et) as Hl.
        apply andb_prop in Hc. destruct Hc as [Hc _].
        apply andb_prop in Hc. destruct Hc as [_ Hact].
        cbn [last_bbox tracking_active].
        split; [exact Hl|]. split; [exact Hact|]. split.
        * rewrite <- Et. now apply track_face_last_bbox.
        * intros Hf. congruence.
      + destruct (_detect_with_mtcnn self frame out) as [b|] eqn:Ed;
          cbn [fst snd]; intros [= <-].
        apply (Hfull b eq_refl).
    - destruct (_detect_with_mtcnn self frame out) as [b|] eqn:Ed;
        cbn [fst snd]; intros [= <-].
      apply (Hfull b eq_refl). }
  destruct H as (Hl & Ha & Ht & Hd).
  split; [exact Hl|]. split; [exact Ha|]. split; [exact Hd|].
  intros frame' out' Hh Hw.
  assert (Ht' : _track_face stored frame' = Some bbox).
  { now rewrite (track_face_same_shape stored stored frame frame'). }
  split; [exact Ht'|].
  rewrite detect_face_tracked by (try assumption; rewrite Ht'; discriminate).
  now rewrite Hl.
Qed.

Lemma C7_detect_store_track_roundtrip_witness :
  fst (detect_face Examples.fresh_detector Examples.frame_100 true
                   Examples.box_inside_frame) = Some (20, 30, 80, 90) /\
  last_bbox (snd (detect_face Examples.fresh_detector Examples.frame_100 true
                              Examples.box_inside_frame))
  = Some (20, 30, 80, 90).
Proof.
  split; [reflexivity|].
  destruct (C7_detect_store_track_roundtrip
              Examples.fresh_detector Examples.frame_100 true
              Examples.box_inside_frame (20, 30, 80, 90))
    as (Hstored & _); [reflexivity | exact Hstored].
Defined.

(** C8 as stated fails: a confident detection lying beyond the right
    edge of a 100 x 100 frame is clamped to the degenerate box with
    x1 = x2 = 99. *)
Lemma C8_clamped_box_can_be_degenerate :
  _detect_with_mtcnn Examples.fresh_detector Examples.frame_100
                     Examples.box_beyond_frame = Some (99, 20, 99, 60) /\
  ~ (99 < 99).
Proof. split; [reflexivity|lia]. Qed.

(** C8, amended. On a frame at least one pixel wide and high, every box
    produced by detection has its four integer coordinates within
    [0, width) x [0, height): never negative, never out of bounds. It is
    non-degenerate along an axis exactly when that axis has at least two
    pixels and the detector's truncated box starts before it ends,
    starts before the last pixel and ends after the first. *)
Theorem C8_clamped_box_within_frame :
  forall self frame out x1 y1 x2 y2,
    1 <= shape_w frame ->
    1 <= shape_h frame ->
    _detect_with_mtcnn self frame out = Some (x1, y1, x2, y2) ->
    (0 <= x1 < shape_w frame /\ 0 <= x2 < shape_w frame /\
     0 <= y1 < shape_h frame /\ 0 <= y2 < shape_h frame) /\
    exists bx1 by1 bx2 by2 rest probs,
      out = DetectReturns (Some ((bx1, by1, bx2, by2) :: rest)) probs /\
      (x1 < x2 <-> astype_int bx1 < astype_int bx2 /\
                   astype_int bx1 < shape_w frame - 1 /\
                   0 < astype_int bx2 /\ 1 < shape_w frame) /\
      (y1 < y2 <-> astype_int by1 < astype_int by2 /\
                   astype_int by1 < shape_h frame - 1 /\
                   0 < astype_int by2 /\ 1 < shape_h frame).
Proof.
  intros self frame out x1 y1 x2 y2 Hw Hh Hdet.
  destruct (detect_some_inv _ _ _ _ Hdet)
    as (bx1 & by1 & bx2 & by2 & rest & probs & Hout & Hbox).
  injection Hbox as -> -> -> ->.
  split.
  - repeat split; apply clamp_bounds; assumption.
  - exists bx1, by1, bx2, by2, rest, probs.
    split; [exact Hout|]. split; apply clamp_lt_iff.
Qed.

Lemma C8_clamped_box_within_frame_witness :
  1 <= shape_w Examples.frame_100 /\
  1 <= shape_h Examples.frame_100 /\
  _detect_with_mtcnn Examples.fresh_detector Examples.frame_100
                     Examples.box_beyond_frame = Some (99, 20, 99, 60) /\
  (0 <= 99 < shape_w Examples.frame_100 /\
   0 <= 99 < shape_w Examples.frame_100 /\
   0 <= 20 < shape_h Examples.frame_100 /\
   0 <= 60 < shape_h Examples.frame_100).
Proof.
  split; [cbn; lia|]. split; [cbn; lia|]. split; [reflexivity|].
  apply (C8_clamped_box_within_frame
           Examples.fresh_detector Examples.frame_100
           Examples.box_beyond_frame 99 20 99 60);
    [cbn; lia | cbn; lia | reflexivity].
Defined.

End FaceDetectorFacts.

(** * Properties of the metrics window (logger.py) *)

Section PerformanceLoggerFacts.

Import PerformanceLogger.

Lemma deque_append_room x d :
  (length (Deque.items d) < Deque.maxlen d)%nat ->
  Deque.append x d = Deque.mk (Deque.maxlen d) (Deque.items d ++ [x]).
Proof.
  intros H. unfold Deque.append. f_equal.
  rewrite length_app. cbn [length].
  replace (length (Deque.items d) + 1 - Deque.maxlen d)%nat with 0%nat by lia.
  reflexivity.
Qed.

(** [_log_metrics] touches only [last_log_time] and the log. *)
Lemma log_metrics_fields p self :
  let self' := _log_metrics p self in
  log_interval self' = log_interval self /\
  frame_times self' = frame_times self /\
  processing_times self' = processing_times self /\
  frame_count self' = frame_count self /\
  dropped_frames self' = dropped_frames self /\
  start_time self' = start_time self /\
  last_frame_time self' = last_frame_time self.
Proof.
  unfold _log_metrics.
  destruct (Deque.len (processing_times self) =? 0)%nat; cbn; auto 10.
Qed.

(** The fields of the logger after an [end_frame] with a pending start,
    whether or not its modulo raised. *)
Lemma end_frame_fields p success self started :
  start_time self = Some started ->
  let self' := fst (end_frame p success self) in
  let done :=
    update_metrics success ((now p - started) * fl 1000)%Qc
                   ((now p - last_frame_time self) * fl 1000)%Qc
                   (now p) self in
  log_interval self' = log_interval self /\
  frame_times self' = frame_times done /\
  processing_times self' = processing_times done /\
  frame_count self' = frame_count done /\
  dropped_frames self' = dropped_frames done /\
  last_frame_time self' = now p.
Proof.
  intros Hs. unfold end_frame. rewrite Hs.
  set (done := update_metrics _ _ _ _ _).
  assert (Hd : log_interval done = log_interval self /\
               last_frame_time done = now p).
  { subst done. unfold update_metrics. destruct success; auto. }
  destruct Hd as [Hli Hlf].
  destruct (py_mod (frame_count done) (log_interval done)) as [e|r].
  - cbn. auto 10.
  - cbn [fst]. destruct (r =? 0).
    + destruct (log_metrics_fields p done) as (H1 & H2 & H3 & H4 & H5 & _ & H7).
      cbn. rewrite H1, H2, H3, H4, H5, H7. auto 10.
    + cbn. auto 10.
Qed.

(** C10. [end_frame] with no [start_frame] pending does nothing: the
    logger it leaves is the logger it was given (so both sample windows,
    the frame count and the dropped counter are unchanged), and it does
    not raise, for either value of [success]. *)
Theorem C10_end_frame_without_start_is_noop :
  forall p success self,
    start_time self = None ->
    end_frame p success self = (self, None) /\
    frame_times (fst (end_frame p success self)) = frame_times self /\
    processing_times (fst (end_frame p success self))
    = processing_times self /\
    frame_count (fst (end_frame p success self)) = frame_count self /\
    dropped_frames (fst (end_frame p success self)) = dropped_frames self.
Proof.
  intros p success self Hs. unfold end_frame. rewrite Hs. cbn. auto.
Qed.

Lemma C10_end_frame_without_start_is_noop_witness :
  start_time Examples.fresh_logger = None /\
  end_frame (Examples.probe_at (fl 1)) false Examples.fresh_logger
  = (Examples.fresh_logger, None).
Proof.
  split; [reflexivity|].
  apply (C10_end_frame_without_start_is_noop
           (Examples.probe_at (fl 1)) false Examples.fresh_logger).
  reflexivity.
Defined.

(** C5 as stated fails: after one frame skipped by the stride gate the
    window holds no sample, yet the snapshot reports one dropped
    frame. *)
Lemma C5_empty_window_reports_drops :
  Deque.items (processing_times Examples.logger_after_skip) = [] /\
  Deque.items (frame_times Examples.logger_after_skip) = [] /\
  m_dropped_frames
    (get_current_metrics (fl 0) (fl 0) Examples.logger_after_skip) = 1 /\
  1 <> 0.
Proof. repeat split; try reflexivity. discriminate. Qed.

(** C5, amended. With no sample in the window [get_current_metrics]
    returns fps 0 and average, minimum and maximum latency 0, and
    reports the running total of dropped frames, which is 0 on a logger
    just constructed or just reset. The function is total, so it does
    not fail. *)
Theorem C5_empty_window_snapshot :
  forall host_cpu host_mem self,
    Deque.items (processing_times self) = [] ->
    get_current_metrics host_cpu host_mem self
    = mkMetrics (Finite (fl 0)) (fl 0) (fl 0) (fl 0) (dropped_frames self)
                (fl 0) (fl 0) /\
    (forall window_size interval clock,
        m_dropped_frames
          (get_current_metrics host_cpu host_mem
             (__init__ window_size interval clock)) = 0) /\
    (forall clock1 clock2,
        get_current_metrics host_cpu host_mem (reset clock1 clock2 self)
        = mkMetrics (Finite (fl 0)) (fl 0) (fl 0) (fl 0) 0 (fl 0) (fl 0)).
Proof.
  intros host_cpu host_mem self Hempty.
  unfold get_current_metrics, Deque.len. rewrite Hempty. cbn.
  split; [reflexivity|]. split; reflexivity.
Qed.

Lemma C5_empty_window_snapshot_witness :
  Deque.items (processing_times Examples.logger_after_skip) = [] /\
  get_current_metrics (fl 0) (fl 0) Examples.logger_after_skip
  = mkMetrics (Finite (fl 0)) (fl 0) (fl 0) (fl 0)
              (dropped_frames Examples.logger_after_skip) (fl 0) (fl 0).
Proof.
  split; [reflexivity|].
  apply (C5_empty_window_snapshot (fl 0) (fl 0) Examples.logger_after_skip).
  reflexivity.
Defined.

Lemma deque_three x y z d :
  Deque.items d = [] ->
  (3 <= Deque.maxlen d)%nat ->
  Deque.items (Deque.append z (Deque.append y (Deque.append x d)))
  = [x; y; z].
Proof.
  intros Hi Hm.
  rewrite (deque_append_room x d) by (rewrite Hi; cbn; lia).
  rewrite (deque_append_room y) by (cbn; rewrite Hi; cbn; lia).
  rewrite (deque_append_room z) by (cbn; rewrite Hi; cbn; lia).
  cbn. now rewrite Hi.
Qed.

(** One frame recorded as a success: [start_frame], then
    [end_frame(success=True)]. *)
Lemma record_success_fields s p self :
  let self' := fst (end_frame p true (start_frame s self)) in
  frame_times self'
  = Deque.append ((now p - last_frame_time self) * fl 1000)%Qc
                 (frame_times self) /\
  processing_times self'
  = Deque.append ((now p - s) * fl 1000)%Qc (processing_times self) /\
  dropped_frames self' = dropped_frames self /\
  last_frame_time self' = now p.
Proof.
  intros self'.
  destruct (end_frame_fields p true (start_frame s self) s eq_refl)
    as (_ & H1 & H2 & _ & H3 & H4).
  repeat split; assumption.
Qed.

(** The two windows after three successful frames recorded into empty
    windows with room for three. *)
Lemma record3_windows s1 p1 s2 p2 s3 p3 self :
  Deque.items (processing_times self) = [] ->
  Deque.items (frame_times self) = [] ->
  (3 <= Deque.maxlen (processing_times self))%nat ->
  (3 <= Deque.maxlen (frame_times self))%nat ->
  let after := record3 s1 p1 s2 p2 s3 p3 self in
  Deque.items (processing_times after)
  = [ ((now p1 - s1) * fl 1000)%Qc;
      ((now p2 - s2) * fl 1000)%Qc;
      ((now p3 - s3) * fl 1000)%Qc ] /\
  Deque.items (frame_times after)
  = [ ((now p1 - last_frame_time self) * fl 1000)%Qc;
      ((now p2 - now p1) * fl 1000)%Qc;
      ((now p3 - now p2) * fl 1000)%Qc ] /\
  dropped_frames after = dropped_frames self.
Proof.
  intros Hp Hf Hmp Hmf. unfold record3.
  destruct (record_success_fields s1 p1 self) as (Ha1 & Ha2 & Ha3 & Ha4).
  set (a := fst (end_frame p1 true (start_frame s1 self))) in *.
  destruct (record_success_fields s2 p2 a) as (Hb1 & Hb2 & Hb3 & Hb4).
  set (b := fst (end_frame p2 true (start_frame s2 a))) in *.
  destruct (record_success_fields s3 p3 b) as (Hc1 & Hc2 & Hc3 & _).
  cbv zeta. rewrite Hc1, Hc2, Hc3, Hb1, Hb2, Hb3, Hb4, Ha1, Ha2, Ha3, Ha4.
  rewrite !deque_three by assumption. auto.
Qed.

(** C6. Three successful samples with processing times 10, 20, 30 ms and
    inter-arrival times 100, 100, 100 ms, recorded into an empty window
    of size at least 3: the snapshot reports average latency 20, minimum
    10, maximum 30 and fps 10 = 1000 / mean inter-arrival. *)
Theorem C6_three_samples_snapshot :
  forall s1 p1 s2 p2 s3 p3 host_cpu host_mem self,
    Deque.items (processing_times self) = [] ->
    Deque.items (frame_times self) = [] ->
    (3 <= Deque.maxlen (processing_times self))%nat ->
    (3 <= Deque.maxlen (frame_times self))%nat ->
    ((now p1 - s1) * fl 1000 = fl 10)%Qc ->
    ((now p2 - s2) * fl 1000 = fl 20)%Qc ->
    ((now p3 - s3) * fl 1000 = fl 30)%Qc ->
    ((now p1 - last_frame_time self) * fl 1000 = fl 100)%Qc ->
    ((now p2 - now p1) * fl 1000 = fl 100)%Qc ->
    ((now p3 - now p2) * fl 1000 = fl 100)%Qc ->
    let m := get_current_metrics host_cpu host_mem
               (record3 s1 p1 s2 p2 s3 p3 self) in
    avg_latency m = fl 20 /\
    min_latency m = fl 10 /\
    max_latency m = fl 30 /\
    fps m = Finite (fl 10) /\
    fps m = round64 (np_div_1000
                       (np_mean (Deque.items
                                   (frame_times
                                      (record3 s1 p1 s2 p2 s3 p3 self))))) 2.
Proof.
  intros s1 p1 s2 p2 s3 p3 host_cpu host_mem self Hp Hf Hmp Hmf
         H10 H20 H30 Hi1 Hi2 Hi3.
  destruct (record3_windows s1 p1 s2 p2 s3 p3 self Hp Hf Hmp Hmf)
    as (Hpt & Hft & _).
  rewrite H10, H20, H30 in Hpt. rewrite Hi1, Hi2, Hi3 in Hft.
  cbv zeta. unfold get_current_metrics, Deque.len.
  rewrite Hpt, Hft.
  cbn [length Nat.eqb Nat.ltb Nat.leb avg_latency min_latency max_latency fps].
  repeat split.
  - apply Qc_is_canon. vm_compute. reflexivity.
  - apply Qc_is_canon. vm_compute. reflexivity.
  - apply Qc_is_canon. vm_compute. reflexivity.
  - vm_compute. f_equal. apply Qc_is_canon. reflexivity.
Qed.

Lemma C6_three_samples_snapshot_witness :
  avg_latency
    (get_current_metrics (fl 0) (fl 0)
       (record3 (Q2Qc (9 # 100)) (Examples.probe_at (Q2Qc (10 # 100)))
                (Q2Qc (18 # 100)) (Examples.probe_at (Q2Qc (20 # 100)))
                (Q2Qc (27 # 100)) (Examples.probe_at (Q2Qc (30 # 100)))
                Examples.fresh_logger)) = fl 20.
Proof.
  apply (C6_three_samples_snapshot
           (Q2Qc (9 # 100)) (Examples.probe_at (Q2Qc (10 # 100)))
           (Q2Qc (18 # 100)) (Examples.probe_at (Q2Qc (20 # 100)))
           (Q2Qc (27 # 100)) (Examples.probe_at (Q2Qc (30 # 100)))
           (fl 0) (fl 0) Examples.fresh_logger);
    first [ reflexivity
          | cbn; lia
          | apply Qc_is_canon; reflexivity ].
Defined.

End PerformanceLoggerFacts.

(** * Properties of the frame handler and the dispatch (app.py) *)

Section AppFacts.

Import FramePreprocessor App.

Variable codec : Codec.

Lemma end_frame_no_raise p success l :
  PerformanceLogger.log_interval l <> 0 ->
  snd (PerformanceLogger.end_frame p success l) = None.
Proof.
  intros Hli. unfold PerformanceLogger.end_frame.
  destruct (PerformanceLogger.start_time l); [|reflexivity].
  set (done := PerformanceLogger.update_metrics _ _ _ _ _).
  assert (Hd : PerformanceLogger.log_interval done
               = PerformanceLogger.log_interval l).
  { subst done. unfold PerformanceLogger.update_metrics.
    now destruct success. }
  unfold py_mod. rewrite Hd.
  destruct (Z.eqb_spec (PerformanceLogger.log_interval l) 0); [contradiction|].
  reflexivity.
Qed.

(** With a usable log interval the [end_frame] of a [try] block does
    not raise, and the block goes on. *)
Lemma end_frame_then_ok p success handler k s :
  PerformanceLogger.log_interval (perf_logger s) <> 0 ->
  end_frame_then p success handler k s
  = k (with_logger (fst (PerformanceLogger.end_frame p success (perf_logger s)))
                   s).
Proof.
  intros Hli. unfold end_frame_then.
  pose proof (end_frame_no_raise p success _ Hli) as Hn.
  destruct (PerformanceLogger.end_frame p success (perf_logger s)) as [l r].
  cbn in Hn. subst r. reflexivity.
Qed.

(** [handle_frame] under a usable configuration, branch by branch. *)
Lemma handle_frame_eq env data s :
  frame_skip (config s) <> 0 ->
  PerformanceLogger.log_interval (perf_logger s) <> 0 ->
  handle_frame codec env data s
  = if negb (Spec.admitted (frame_skip (config s)) (frame_counter s + 1))
    then (failed_sample env s, None)
    else
      match decoded_frame codec data with
      | Some frame =>
          (with_pool (ThreadPool.submit frame (thread_pool s)) (entered env s),
           None)
      | None =>
          match data with
          | Dict (Some _) | Bytes _ =>
              (emit (error (Text "Failed to decode frame"))
                    (failed_sample env s), None)
          | _ => (failed_sample env s, None)
          end
      end.
Proof.
  intros HS Hli. unfold handle_frame, Spec.admitted. cbv zeta.
  set (s1 := with_counter _ _).
  assert (E : s1 = entered env s) by reflexivity.
  clearbody s1. subst s1.
  change (frame_counter (entered env s)) with (frame_counter s + 1).
  change (config (entered env s)) with (config s).
  unfold py_mod.
  destruct (Z.eqb_spec (frame_skip (config s)) 0); [contradiction|].
  assert (Hli' : PerformanceLogger.log_interval (perf_logger (entered env s))
                 <> 0) by exact Hli.
  destruct (negb _).
  - rewrite end_frame_then_ok by exact Hli'. reflexivity.
  - unfold decoded_frame.
    destruct data as [[image|]|b|].
    + destruct (decode_frame codec image); [reflexivity|].
      rewrite end_frame_then_ok by exact Hli'. reflexivity.
    + rewrite end_frame_then_ok by exact Hli'. reflexivity.
    + destruct (decode_binary_frame codec b); [reflexivity|].
      rewrite end_frame_then_ok by exact Hli'. reflexivity.
    + rewrite end_frame_then_ok by exact Hli'. reflexivity.
Qed.

(** A failed sample adds one to the dropped counter and leaves the
    windows, the pool, the outbox and the configuration alone. *)
Lemma failed_sample_at_fields p env s :
  let s' := failed_sample_at p env s in
  config s' = config s /\
  PerformanceLogger.log_interval (perf_logger s')
  = PerformanceLogger.log_interval (perf_logger s) /\
  frame_counter s' = frame_counter s + 1 /\
  thread_pool s' = thread_pool s /\
  dropped s' = dropped s + 1 /\
  outbox s' = outbox s /\
  PerformanceLogger.processing_times (perf_logger s')
  = PerformanceLogger.processing_times (perf_logger s) /\
  PerformanceLogger.frame_times (perf_logger s')
  = PerformanceLogger.frame_times (perf_logger s).
Proof.
  intros s'. subst s'. unfold failed_sample_at, dropped.
  destruct (end_frame_fields p false
              (perf_logger (entered env s)) (at_start env) eq_refl)
    as (H1 & H2 & H3 & _ & H5 & _).
  cbn [config perf_logger with_logger frame_counter thread_pool outbox].
  rewrite H1, H2, H3, H5. cbn. auto 10.
Qed.

Lemma failed_sample_fields env s :
  let s' := failed_sample env s in
  config s' = config s /\
  PerformanceLogger.log_interval (perf_logger s')
  = PerformanceLogger.log_interval (perf_logger s) /\
  frame_counter s' = frame_counter s + 1 /\
  thread_pool s' = thread_pool s /\
  dropped s' = dropped s + 1 /\
  outbox s' = outbox s /\
  PerformanceLogger.processing_times (perf_logger s')
  = PerformanceLogger.processing_times (perf_logger s) /\
  PerformanceLogger.frame_times (perf_logger s')
  = PerformanceLogger.frame_times (perf_logger s).
Proof. apply failed_sample_at_fields. Qed.

(** A zero stride: the modulo raises, the [except] clause records a
    failed sample and reports the exception to the client. *)
Lemma handle_frame_zero_stride env data s :
  frame_skip (config s) = 0 ->
  PerformanceLogger.log_interval (perf_logger s) <> 0 ->
  handle_frame codec env data s
  = (emit (error (StrOf ZeroDivisionError))
          (failed_sample_at (at_except env) env s), None).
Proof.
  intros HS Hli. unfold handle_frame. cbv zeta.
  set (s1 := with_counter _ _).
  assert (E : s1 = entered env s) by reflexivity.
  clearbody s1. subst s1.
  change (config (entered env s)) with (config s).
  unfold py_mod. rewrite HS. cbn [Z.eqb].
  unfold handle_frame_except.
  assert (Hli' : PerformanceLogger.log_interval (perf_logger (entered env s))
                 <> 0) by exact Hli.
  pose proof (end_frame_no_raise (at_except env) false _ Hli') as Hn.
  unfold failed_sample_at.
  destruct (PerformanceLogger.end_frame _ _ _) as [l r].
  cbn in Hn. subst r. reflexivity.
Qed.

(** Among [stride] consecutive counter values exactly one is a multiple of
    [stride]. *)
Lemma unique_multiple stride c :
  1 <= stride ->
  let j := (- (c + 1)) mod stride in
  0 <= j < stride /\
  (c + 1 + j) mod stride = 0 /\
  (forall k, 0 <= k < stride -> (c + 1 + k) mod stride = 0 -> k = j).
Proof.
  intros HS j.
  assert (Hj : 0 <= j < stride) by (apply Z.mod_pos_bound; lia).
  assert (Ej : - (c + 1) = stride * ((- (c + 1)) / stride) + j)
    by (apply Z.div_mod; lia).
  split; [exact Hj|]. split.
  - replace (c + 1 + j) with ((- ((- (c + 1)) / stride)) * stride) by lia.
    apply Z.mod_mul. lia.
  - intros k Hk Hmod.
    assert (Ek : c + 1 + k = stride * ((c + 1 + k) / stride) + 0).
    { rewrite <- Hmod. apply Z.div_mod. lia. }
    set (q := (c + 1 + k) / stride) in *. set (q' := (- (c + 1)) / stride) in *.
    assert (k - j = stride * (q + q')) by lia.
    assert (q + q' = 0) by nia.
    nia.
Qed.

(** One ['frame'] event under a usable configuration: the counter goes
    up by one; the frame is submitted when its counter value is admitted
    and it decodes, and is recorded as dropped otherwise. *)
Lemma handle_frame_step stride env data s :
  well_configured stride s ->
  stride <> 0 ->
  let s' := fst (handle_frame codec env data s) in
  well_configured stride s' /\
  frame_counter s' = frame_counter s + 1 /\
  (thread_pool s', dropped s')
  = if Spec.admitted stride (frame_counter s + 1)
    then match decoded_frame codec data with
         | Some frame =>
             (ThreadPool.submit frame (thread_pool s), dropped s)
         | None => (thread_pool s, dropped s + 1)
         end
    else (thread_pool s, dropped s + 1).
Proof.
  intros [HS Hli] HS0 s'. subst s'.
  rewrite handle_frame_eq by (rewrite ?HS; assumption).
  rewrite HS.
  destruct (failed_sample_fields env s)
    as (F1 & F2 & F3 & F4 & F5 & _).
  unfold well_configured.
  destruct (Spec.admitted stride (frame_counter s + 1)); cbn [negb fst].
  - destruct (decoded_frame codec data) as [frame|] eqn:E.
    + cbn. auto.
    + assert (G : forall r : outcome,
                 r = (failed_sample env s, None) \/
                 r = (emit (error (Text "Failed to decode frame"))
                           (failed_sample env s), None) ->
                 (frame_skip (config (fst r)) = stride /\
                  PerformanceLogger.log_interval (perf_logger (fst r)) <> 0) /\
                 frame_counter (fst r) = frame_counter s + 1 /\
                 (thread_pool (fst r), dropped (fst r))
                 = (thread_pool s, dropped s + 1)).
      { intros r [-> | ->]; cbn [fst]; unfold dropped in *;
          cbn [emit config perf_logger frame_counter thread_pool];
          rewrite F1, F2, F3, F4, F5; auto. }
      apply G. destruct data as [[image|]|b|]; auto.
  - rewrite F1, F2, F3, F4, F5. auto.
Qed.

Lemma handle_frames_app l1 : forall l2 s,
  handle_frames codec (l1 ++ l2) s
  = handle_frames codec l2 (handle_frames codec l1 s).
Proof.
  induction l1 as [|[env data] l1 IH]; intros l2 s; [reflexivity|].
  cbn. apply IH.
Qed.

(** A run of frames none of whose counter values is admitted: all of
    them are recorded as dropped and none is submitted. *)
Lemma handle_frames_skipped stride events : forall s,
  well_configured stride s ->
  stride <> 0 ->
  (forall k, (k < length events)%nat ->
             Spec.admitted stride (frame_counter s + 1 + Z.of_nat k) = false) ->
  let s' := handle_frames codec events s in
  well_configured stride s' /\
  frame_counter s' = frame_counter s + Z.of_nat (length events) /\
  thread_pool s' = thread_pool s /\
  dropped s' = dropped s + Z.of_nat (length events).
Proof.
  induction events as [|[env data] events IH]; intros s Hwc HS Hskip.
  - cbn. rewrite !Z.add_0_r. auto.
  - cbn [handle_frames].
    destruct (handle_frame_step stride env data s Hwc HS) as (Hwc1 & Hc1 & Hp1).
    pose proof (Hskip 0%nat ltac:(cbn; lia)) as H0.
    cbn [Z.of_nat] in H0. rewrite Z.add_0_r in H0. rewrite H0 in Hp1.
    injection Hp1 as Hp1 Hd1.
    destruct (IH (fst (handle_frame codec env data s)) Hwc1 HS)
      as (Hwc2 & Hc2 & Hp2 & Hd2).
    { intros k Hk. rewrite Hc1.
      replace (frame_counter s + 1 + 1 + Z.of_nat k)
        with (frame_counter s + 1 + Z.of_nat (Datatypes.S k)) by lia.
      apply Hskip. cbn. lia. }
    cbv zeta. rewrite Hc2, Hp2, Hd2, Hc1, Hp1, Hd1.
    cbn [length]. repeat split; try apply Hwc2; lia.
Qed.

(** Under a usable configuration the handler returns; nothing leaves
    it as an exception. *)
Lemma handle_frame_returns env data s :
  frame_skip (config s) <> 0 ->
  PerformanceLogger.log_interval (perf_logger s) <> 0 ->
  snd (handle_frame codec env data s) = None.
Proof.
  intros HS Hli. rewrite handle_frame_eq by assumption.
  destruct (negb _); [reflexivity|].
  destruct (decoded_frame codec data); [reflexivity|].
  destruct data as [[image|]|b|]; reflexivity.
Qed.

(** C2, amended. For a stride [stride >= 1] and a log interval that is
    not zero: the handler returns, and a frame is appended to the
    executor's queue exactly when its counter value [i] has
    [i mod stride = 0] and it decodes; otherwise it is recorded in the
    metrics as a dropped frame, once, and the queue stays. In every run
    of [stride] consecutive frames exactly one counter value is admitted
    and the other [stride - 1] frames are recorded as dropped; with
    [stride = 1] every counter value is admitted. *)
Theorem C2_stride_admission :
  forall stride events s,
    1 <= stride ->
    frame_skip (config s) = stride ->
    PerformanceLogger.log_interval (perf_logger s) <> 0 ->
    length events = Z.to_nat stride ->
    (forall env data s0,
        frame_skip (config s0) = stride ->
        PerformanceLogger.log_interval (perf_logger s0) <> 0 ->
        let s1 := fst (handle_frame codec env data s0) in
        snd (handle_frame codec env data s0) = None /\
        frame_counter s1 = frame_counter s0 + 1 /\
        ThreadPool.running (thread_pool s1)
        = ThreadPool.running (thread_pool s0) /\
        (ThreadPool.work_queue (thread_pool s1), dropped s1)
        = if Spec.admitted stride (frame_counter s1)
          then match decoded_frame codec data with
               | Some frame =>
                   (ThreadPool.work_queue (thread_pool s0) ++ [frame],
                    dropped s0)
               | None =>
                   (ThreadPool.work_queue (thread_pool s0), dropped s0 + 1)
               end
          else (ThreadPool.work_queue (thread_pool s0), dropped s0 + 1)) /\
    (exists j env data,
        nth_error events j = Some (env, data) /\
        Spec.admitted stride (frame_counter s + 1 + Z.of_nat j) = true /\
        (forall k, (k < length events)%nat -> k <> j ->
            Spec.admitted stride (frame_counter s + 1 + Z.of_nat k) = false) /\
        let s' := handle_frames codec events s in
        frame_counter s' = frame_counter s + stride /\
        ThreadPool.running (thread_pool s')
        = ThreadPool.running (thread_pool s) /\
        (ThreadPool.work_queue (thread_pool s'), dropped s')
        = match decoded_frame codec data with
          | Some frame =>
              (ThreadPool.work_queue (thread_pool s) ++ [frame],
               dropped s + (stride - 1))
          | None =>
              (ThreadPool.work_queue (thread_pool s),
               dropped s + (stride - 1) + 1)
          end) /\
    (stride = 1 -> forall i, Spec.admitted stride i = true).
Proof.
  intros stride events s HS Hstride Hli Hlen.
  assert (Hwc : well_configured stride s) by (split; assumption).
  assert (HS0 : stride <> 0) by lia.
  split; [|split].
  - intros env data s0 Hstride0 Hli0 s1.
    destruct (handle_frame_step stride env data s0 (conj Hstride0 Hli0) HS0)
      as (_ & Hc & Hp).
    split; [apply handle_frame_returns; [rewrite Hstride0|]; assumption|].
    subst s1. rewrite Hc. split; [reflexivity|].
    destruct (Spec.admitted stride (frame_counter s0 + 1));
      [destruct (decoded_frame codec data)|];
      injection Hp as Hp Hd; rewrite Hp, Hd; split; reflexivity.
  - destruct (unique_multiple stride (frame_counter s) HS)
      as (Hj & Hmod & Huniq).
    set (j := (- (frame_counter s + 1)) mod stride) in *.
    assert (Hskip : forall k, (k < length events)%nat -> k <> Z.to_nat j ->
               Spec.admitted stride (frame_counter s + 1 + Z.of_nat k)
               = false).
    { intros k Hk Hne. unfold Spec.admitted. apply Z.eqb_neq. intros H.
      apply Huniq in H; lia. }
    destruct (nth_error events (Z.to_nat j)) as [[env data]|] eqn:En.
    2:{ apply nth_error_None in En. lia. }
    exists (Z.to_nat j), env, data.
    split; [exact En|]. split.
    { unfold Spec.admitted. apply Z.eqb_eq.
      now replace (Z.of_nat (Z.to_nat j)) with j by lia. }
    split; [exact Hskip|].
    destruct (nth_error_split events (Z.to_nat j) En)
      as (before & after & Hev & Hbefore).
    assert (Hafter : Z.of_nat (length after) = stride - j - 1).
    { rewrite Hev, length_app in Hlen. cbn [length] in Hlen. lia. }
    cbv zeta. rewrite Hev, handle_frames_app. cbn [handle_frames].
    destruct (handle_frames_skipped stride before s Hwc HS0)
      as (Hwc1 & Hc1 & Hp1 & Hd1).
    { intros k Hk. apply Hskip; [rewrite Hev, length_app|]; lia. }
    set (s1 := handle_frames codec before s) in *.
    destruct (handle_frame_step stride env data s1 Hwc1 HS0)
      as (Hwc2 & Hc2 & Hp2).
    replace (frame_counter s1 + 1) with (frame_counter s + 1 + j) in Hp2
      by lia.
    unfold Spec.admitted in Hp2. rewrite Hmod in Hp2. cbn [Z.eqb] in Hp2.
    set (s2 := fst (handle_frame codec env data s1)) in *.
    destruct (handle_frames_skipped stride after s2 Hwc2 HS0)
      as (_ & Hc3 & Hp3 & Hd3).
    { intros k Hk. rewrite Hc2, Hc1, Hbefore.
      replace (frame_counter s + Z.of_nat (Z.to_nat j) + 1 + 1 + Z.of_nat k)
        with (frame_counter s + 1 + Z.of_nat (Z.to_nat j + 1 + k)) by lia.
      apply Hskip; [rewrite Hev, length_app; cbn [length]|]; lia. }
    rewrite Hc3, Hp3, Hd3, Hc2, Hc1.
    split; [lia|].
    destruct (decoded_frame codec data); injection Hp2 as -> ->;
      rewrite Hp1, Hd1; (split; [reflexivity|]); cbn [ThreadPool.submit
        ThreadPool.work_queue]; f_equal; lia.
  - intros -> i. unfold Spec.admitted. now rewrite Z.mod_1_r.
Qed.

(** With a stride that is not zero and a counter value that is admitted,
    a frame that decodes is submitted; the logger is not consulted on
    this path. *)
Lemma handle_frame_submits env data s frame :
  frame_skip (config s) <> 0 ->
  Spec.admitted (frame_skip (config s)) (frame_counter s + 1) = true ->
  decoded_frame codec data = Some frame ->
  handle_frame codec env data s
  = (with_pool (ThreadPool.submit frame (thread_pool s)) (entered env s),
     None).
Proof.
  intros HS Hadm Hdec. unfold handle_frame. cbv zeta.
  set (s1 := with_counter _ _).
  assert (E : s1 = entered env s) by reflexivity.
  clearbody s1. subst s1.
  change (frame_counter (entered env s)) with (frame_counter s + 1).
  change (config (entered env s)) with (config s).
  unfold py_mod.
  destruct (Z.eqb_spec (frame_skip (config s)) 0); [contradiction|].
  unfold Spec.admitted in Hadm. rewrite Hadm. cbn [negb].
  unfold decoded_frame in Hdec.
  destruct data as [[image|]|b|]; try discriminate Hdec;
    rewrite Hdec; reflexivity.
Qed.

(** C9, amended. A payload from which no frame can be decoded, handled
    under a non-zero log interval: the handler returns without raising,
    records one failed sample (the dropped counter goes up by one, the
    sample windows stay) and submits nothing. When the frame passes the
    stride gate and the payload is a dictionary with an image entry or
    a byte buffer, the handler also emits the error event
    "Failed to decode frame"; a frame stopped by the stride gate is not
    decoded and emits nothing. *)
Theorem C9_malformed_payload_outcome :
  forall env data s,
    decoded_frame codec data = None ->
    PerformanceLogger.log_interval (perf_logger s) <> 0 ->
    let r := handle_frame codec env data s in
    snd r = None /\
    dropped (fst r) = dropped s + 1 /\
    thread_pool (fst r) = thread_pool s /\
    PerformanceLogger.processing_times (perf_logger (fst r))
    = PerformanceLogger.processing_times (perf_logger s) /\
    PerformanceLogger.frame_times (perf_logger (fst r))
    = PerformanceLogger.frame_times (perf_logger s) /\
    (frame_skip (config s) <> 0 ->
     Spec.admitted (frame_skip (config s)) (frame_counter s + 1) = true ->
     (exists image, data = Dict (Some image)) \/ (exists b, data = Bytes b) ->
     outbox (fst r)
     = outbox s ++ [error (Text "Failed to decode frame")]) /\
    (frame_skip (config s) <> 0 ->
     Spec.admitted (frame_skip (config s)) (frame_counter s + 1) = false ->
     outbox (fst r) = outbox s).
Proof.
  intros env data s Hdec Hli r.
  destruct (Z.eq_dec (frame_skip (config s)) 0) as [HS|HS].
  - subst r. rewrite handle_frame_zero_stride by assumption.
    destruct (failed_sample_at_fields (at_except env) env s)
      as (_ & _ & _ & F4 & F5 & _ & F7 & F8).
    cbn [fst snd]. unfold dropped in *.
    cbn [emit perf_logger thread_pool].
    (split; [reflexivity|]); (split; [exact F5|]);
    (split; [exact F4|]); (split; [exact F7|]); (split; [exact F8|]).
    split; intros Hne; contradiction.
  - subst r. rewrite handle_frame_eq by assumption. rewrite Hdec.
    destruct (failed_sample_fields env s)
      as (_ & _ & _ & F4 & F5 & F6 & F7 & F8).
    unfold dropped in *.
    destruct (Spec.admitted _ _); cbn [negb].
    + destruct data as [[image|]|b|];
        cbn [fst snd emit perf_logger thread_pool outbox];
        (split; [reflexivity|]); (split; [exact F5|]);
        (split; [exact F4|]); (split; [exact F7|]); (split; [exact F8|]);
        (split; [|intros _ H; discriminate H]);
        first [ intros _ _ _; rewrite F6; reflexivity
              | intros _ _ [[? H]|[? H]]; discriminate H ].
    + cbn [fst snd].
      (split; [reflexivity|]); (split; [exact F5|]);
      (split; [exact F4|]); (split; [exact F7|]); (split; [exact F8|]).
      split; [intros _ H; discriminate H | intros _ _; exact F6].
Qed.

(** [handle_frame] changes the pool by at most one [submit]. *)
Lemma handle_frame_pool env data s :
  thread_pool (fst (handle_frame codec env data s)) = thread_pool s \/
  exists frame,
    thread_pool (fst (handle_frame codec env data s))
    = ThreadPool.submit frame (thread_pool s).
Proof.
  unfold handle_frame, end_frame_then, handle_frame_except, returns.
  cbv zeta.
  case_matches;
    cbn; eauto.
Qed.

Lemma process_frame_pool env frame s :
  thread_pool (fst (process_frame env frame s)) = thread_pool s.
Proof.
  unfold process_frame, end_frame_then, process_frame_except, returns.
  cbv zeta.
  case_matches;
    reflexivity.
Qed.

Lemma step_pool_bounded s s' :
  step codec s s' ->
  ThreadPool.pool_bounded (thread_pool s) ->
  ThreadPool.pool_bounded (thread_pool s') /\
  ThreadPool.max_workers (thread_pool s')
  = ThreadPool.max_workers (thread_pool s).
Proof.
  unfold ThreadPool.pool_bounded.
  intros Hstep Hb. destruct Hstep as [env data s | s pool Hs | env i s frame pool Hf].
  - destruct (handle_frame_pool env data s) as [-> | [frame ->]]; cbn; auto.
  - unfold ThreadPool.start_next in Hs.
    destruct (ThreadPool.work_queue (thread_pool s)) as [|task rest];
      [discriminate|].
    destruct (Nat.ltb_spec (length (ThreadPool.running (thread_pool s)))
                           (ThreadPool.max_workers (thread_pool s)));
      [|discriminate].
    injection Hs as <-. cbn. rewrite length_app. cbn. split; lia.
  - rewrite process_frame_pool. cbn [thread_pool with_pool].
    unfold ThreadPool.finish in Hf.
    destruct (nth_error (ThreadPool.running (thread_pool s)) i) eqn:En;
      [|discriminate].
    assert (E : pool
                = ThreadPool.mk
                    (ThreadPool.max_workers (thread_pool s))
                    (ThreadPool.work_queue (thread_pool s))
                    (firstn i (ThreadPool.running (thread_pool s))
                     ++ skipn (Datatypes.S i)
                              (ThreadPool.running (thread_pool s))))
      by congruence.
    rewrite E. cbn [ThreadPool.running ThreadPool.max_workers].
    split; [|reflexivity].
    rewrite length_app, length_firstn, length_skipn. lia.
Qed.

(** C1, amended. The handler makes no single-flight check and the pool
    rejects nothing: in every state reachable from start-up, a frame
    that passes the stride gate and decodes is submitted, whatever is
    already in flight. The handler returns at once without raising, the
    frame goes to the end of the executor's unbounded queue, and the
    number of frames in flight (queued or running) grows by one. Only
    the number of frames running at the same time is bounded, by the
    pool size. *)
Theorem C1_admitted_frames_are_queued :
  forall cfg clock s,
    reachable codec (initialize_components cfg clock) s ->
    (length (ThreadPool.running (thread_pool s)) <= thread_pool_size cfg)%nat /\
    (forall env data frame,
        frame_skip (config s) <> 0 ->
        Spec.admitted (frame_skip (config s)) (frame_counter s + 1) = true ->
        decoded_frame codec data = Some frame ->
        let s' := fst (handle_frame codec env data s) in
        snd (handle_frame codec env data s) = None /\
        ThreadPool.work_queue (thread_pool s')
        = ThreadPool.work_queue (thread_pool s) ++ [frame] /\
        ThreadPool.running (thread_pool s')
        = ThreadPool.running (thread_pool s) /\
        ThreadPool.in_flight (thread_pool s')
        = Datatypes.S (ThreadPool.in_flight (thread_pool s)) /\
        dropped s' = dropped s /\
        outbox s' = outbox s).
Proof.
  intros cfg clock s Hreach. split.
  - assert (H : ThreadPool.pool_bounded (thread_pool s) /\
                ThreadPool.max_workers (thread_pool s) = thread_pool_size cfg).
    { induction Hreach as [|s s' _ [IHb IHm] Hstep].
      - unfold ThreadPool.pool_bounded. cbn. split; [lia|reflexivity].
      - destruct (step_pool_bounded s s' Hstep IHb) as [Hb Hm].
        split; [exact Hb|congruence]. }
    destruct H as [Hb Hm]. unfold ThreadPool.pool_bounded in Hb. lia.
  - intros env data frame HS Hadm Hdec s'. subst s'.
    rewrite handle_frame_submits with (frame := frame) by assumption.
    cbn [fst snd]. unfold ThreadPool.in_flight, dropped. cbn.
    rewrite length_app. cbn.
    repeat split; try reflexivity. lia.
Qed.

(** What [process_frame] does to the detector: the periodic reset if it is
    due, then one call of [detect_face]; nothing after that touches it. *)
Lemma process_frame_detector env frame s :
  face_detector (fst (process_frame env frame s))
  = snd (FaceDetector.detect_face
           (if enable_tracking (config s)
               && FaceDetector.should_redetect (face_detector s)
                    (redetect_interval (config s))
            then FaceDetector.reset_tracking (face_detector s)
            else face_detector s)
           frame (enable_tracking (config s)) (detection env)).
Proof.
  unfold process_frame, end_frame_then, process_frame_except, returns.
  cbv zeta.
  destruct (FaceDetector.detect_face _ frame _ _) as [[bbox|] d]; cbn [snd].
  - case_matches;
      reflexivity.
  - case_matches;
      reflexivity.
Qed.

(** A forced redetect that finds no face leaves the detector in the
    state [reset_tracking] gives: the reset has already happened when the
    detection runs. *)
Lemma process_frame_forced_redetect_failure env frame s :
  enable_tracking (config s) = true ->
  FaceDetector.should_redetect (face_detector s) (redetect_interval (config s))
  = true ->
  FaceDetector._detect_with_mtcnn
    (FaceDetector.reset_tracking (face_detector s)) frame (detection env)
  = None ->
  face_detector (fst (process_frame env frame s))
  = FaceDetector.reset_tracking (face_detector s).
Proof.
  intros Htrack Hdue Hnone.
  rewrite process_frame_detector, Htrack, Hdue. cbn [andb].
  unfold FaceDetector.detect_face, FaceDetector.full_detection.
  cbn [FaceDetector.tracking_active FaceDetector.reset_tracking andb].
  now rewrite Hnone.
Qed.

End AppFacts.

Lemma C2_stride_admission_witness :
  1 <= 2 /\
  App.frame_skip (App.config (Examples.server_with_stride 2)) = 2 /\
  PerformanceLogger.log_interval
    (App.perf_logger (Examples.server_with_stride 2)) <> 0 /\
  length Examples.two_frames = Z.to_nat 2 /\
  App.frame_counter
    (App.handle_frames Examples.codec Examples.two_frames
                       (Examples.server_with_stride 2)) = 2 /\
  (ThreadPool.work_queue
     (App.thread_pool
        (App.handle_frames Examples.codec Examples.two_frames
                           (Examples.server_with_stride 2))),
   App.dropped
     (App.handle_frames Examples.codec Examples.two_frames
                        (Examples.server_with_stride 2)))
  = ([Examples.frame_100], 1).
Proof.
  split; [lia|]. split; [reflexivity|]. split; [discriminate|].
  split; [reflexivity|].
  destruct (C2_stride_admission Examples.codec 2 Examples.two_frames
              (Examples.server_with_stride 2))
    as (_ & (j & env & data & Hnth & _ & _ & Hrun) & _);
    [lia | reflexivity | discriminate | reflexivity |].
  assert (Hdata : data = Examples.good_payload).
  { destruct j as [|[|j]]; cbn in Hnth;
      [congruence | congruence | destruct j; discriminate Hnth]. }
  subst data. cbv zeta in Hrun. destruct Hrun as (Hc & _ & Hq).
  split; [exact Hc | exact Hq].
Defined.

(** ** The handler on concrete frames *)

Example strip_data_url_jpeg :
  FramePreprocessor.strip_data_url "data:image/jpeg;base64,AAAA" = "AAAA"%string.
Proof. reflexivity. Qed.

Example strip_data_url_plain :
  FramePreprocessor.strip_data_url "AAAA" = "AAAA"%string.
Proof. reflexivity. Qed.

Example strip_data_url_twice :
  FramePreprocessor.strip_data_url "xbase64,AAbase64,BB" = "AA"%string.
Proof. reflexivity. Qed.

(** C1 as stated fails: with stride 1, two well-formed frames arriving one
    after the other, before any worker has completed, are both accepted;
    the state is reachable and has two frames in flight. *)
Lemma C1_two_frames_in_flight :
  App.reachable Examples.codec (Examples.server_with_stride 1)
    (App.handle_frames Examples.codec Examples.two_frames
                       (Examples.server_with_stride 1)) /\
  ThreadPool.in_flight
    (App.thread_pool
       (App.handle_frames Examples.codec Examples.two_frames
                          (Examples.server_with_stride 1))) = 2%nat /\
  ~ (2 <= 1)%nat.
Proof.
  split; [|split; [reflexivity|lia]].
  unfold Examples.two_frames. cbn [App.handle_frames].
  eapply App.reach_step; [eapply App.reach_step; [apply App.reach_init|]|];
    apply App.step_frame.
Qed.

Lemma C1_admitted_frames_are_queued_witness :
  App.reachable Examples.codec (Examples.server_with_stride 1)
                Scenarios.server_with_queued_frame /\
  ThreadPool.in_flight (App.thread_pool Scenarios.server_with_queued_frame)
  = 1%nat /\
  snd (App.handle_frame Examples.codec (Examples.handler_env (Q2Qc (50 # 1000)))
                        Examples.good_payload
                        Scenarios.server_with_queued_frame) = None /\
  ThreadPool.work_queue
    (App.thread_pool
       (fst (App.handle_frame Examples.codec
                              (Examples.handler_env (Q2Qc (50 # 1000)))
                              Examples.good_payload
                              Scenarios.server_with_queued_frame)))
  = [Examples.frame_100; Examples.frame_100] /\
  ThreadPool.in_flight
    (App.thread_pool
       (fst (App.handle_frame Examples.codec
                              (Examples.handler_env (Q2Qc (50 # 1000)))
                              Examples.good_payload
                              Scenarios.server_with_queued_frame)))
  = 2%nat.
Proof.
  assert (Hreach : App.reachable Examples.codec (Examples.server_with_stride 1)
                                 Scenarios.server_with_queued_frame).
  { eapply App.reach_step; [apply App.reach_init | apply App.step_frame]. }
  split; [exact Hreach|]. split; [reflexivity|].
  destruct (C1_admitted_frames_are_queued
              Examples.codec
              (App.mkConfig 1 true 30 1 256 (Q2Qc (9 # 10)) 30) (fl 0)
              Scenarios.server_with_queued_frame Hreach) as [_ H].
  destruct (H (Examples.handler_env (Q2Qc (50 # 1000))) Examples.good_payload
              Examples.frame_100)
    as (Hret & Hqueue & _ & Hflight & _);
    [discriminate | reflexivity | reflexivity |].
  split; [exact Hret|]. split; [exact Hqueue | exact Hflight].
Defined.

(** C2 as stated fails: with stride 2 and a log interval of 0, the
    first of two frames is stopped by the stride gate, the modulo in
    [end_frame] raises after the drop has been recorded, the [except]
    clause records it again and raises in turn. The handler lets the
    exception out, and the run of two frames leaves two recorded drops
    where the claim has [2 - 1]. *)
Lemma C2_skipped_frame_counted_twice :
  App.frame_skip (App.config ModelScenarios.server_with_zero_log_interval)
  = 2 /\
  length Examples.two_frames = Z.to_nat 2 /\
  snd (App.handle_frame Examples.codec (Examples.handler_env (Q2Qc (40 # 1000)))
                        Examples.good_payload
                        ModelScenarios.server_with_zero_log_interval)
  = Some ZeroDivisionError /\
  App.dropped
    (App.handle_frames Examples.codec Examples.two_frames
                       ModelScenarios.server_with_zero_log_interval) = 2 /\
  2 <> 2 - 1.
Proof. repeat split; try reflexivity. discriminate. Qed.

(** C9 as stated fails: with stride 2 the first frame is stopped by the
    stride gate before it is decoded; its undecodable payload is counted
    as a dropped frame but no error event is sent. *)
Lemma C9_skipped_malformed_frame_is_silent :
  App.decoded_frame Examples.codec Examples.bad_payload = None /\
  App.outbox
    (fst (App.handle_frame Examples.codec (Examples.handler_env (fl 1))
                           Examples.bad_payload
                           (Examples.server_with_stride 2))) = [] /\
  App.dropped
    (fst (App.handle_frame Examples.codec (Examples.handler_env (fl 1))
                           Examples.bad_payload
                           (Examples.server_with_stride 2))) = 1.
Proof. repeat split; reflexivity. Qed.

Lemma C9_malformed_payload_outcome_witness :
  App.decoded_frame Examples.codec Examples.bad_payload = None /\
  PerformanceLogger.log_interval
    (App.perf_logger (Examples.server_with_stride 1)) <> 0 /\
  snd (App.handle_frame Examples.codec (Examples.handler_env (fl 1))
                        Examples.bad_payload
                        (Examples.server_with_stride 1)) = None.
Proof.
  split; [reflexivity|]. split; [discriminate|].
  apply (C9_malformed_payload_outcome
           Examples.codec (Examples.handler_env (fl 1)) Examples.bad_payload
           (Examples.server_with_stride 1));
    [reflexivity | discriminate].
Defined.

(** A well-formed frame at stride 1 is queued; an undecodable one is
    answered with an error event. *)
Example handle_good_frame :
  ThreadPool.work_queue
    (App.thread_pool
       (fst (App.handle_frame Examples.codec (Examples.handler_env (fl 1))
                              Examples.good_payload
                              (Examples.server_with_stride 1))))
  = [Examples.frame_100].
Proof. reflexivity. Qed.

Example handle_bad_frame :
  App.outbox
    (fst (App.handle_frame Examples.codec (Examples.handler_env (fl 1))
                           Examples.bad_payload
                           (Examples.server_with_stride 1)))
  = [App.error (App.Text "Failed to decode frame")].
Proof. reflexivity. Qed.

(** A payload that is neither a dictionary with an image nor a byte
    buffer is counted as dropped; the handler sends nothing. *)
Example handle_other_payload :
  App.outbox
    (fst (App.handle_frame Examples.codec (Examples.handler_env (fl 1))
                           App.Other (Examples.server_with_stride 1))) = [] /\
  App.dropped
    (fst (App.handle_frame Examples.codec (Examples.handler_env (fl 1))
                           App.Other (Examples.server_with_stride 1))) = 1.
Proof. split; reflexivity. Qed.

(** With a log interval of 0 the modulo in [end_frame] raises in the
    [try] block and again in the [except] clause: the exception leaves the
    handler, and the skipped frame has been counted twice. *)
Example handle_frame_zero_log_interval :
  let s := App.initialize_components
             (App.mkConfig 2 true 30 1 256 (Q2Qc (9 # 10)) 0) (fl 0) in
  let r := App.handle_frame Examples.codec (Examples.handler_env (fl 1))
                            Examples.good_payload s in
  snd r = Some ZeroDivisionError /\ App.dropped (fst r) = 2.
Proof. split; reflexivity. Qed.

(** * Further properties of the detector (face_detector.py) *)

Section DetectorInvariants.

Import FaceDetector Traces.

Lemma full_detection_ok d frame out :
  detector_ok d -> detector_ok (snd (full_detection d frame out)).
Proof.
  intros (Hact & Hcnt & Hbox). unfold full_detection, detector_ok.
  destruct (_detect_with_mtcnn d frame out) as [b|] eqn:Ed;
    cbn [snd tracking_active last_bbox frames_since_detection].
  - destruct (detect_some_inv _ _ _ _ Ed)
      as (bx1 & by1 & bx2 & by2 & rest & probs & _ & ->).
    split; [intros _; discriminate|]. split; [lia|].
    intros b [= <-]. cbn. repeat split; apply clamp_nonneg.
  - split; [intros H; discriminate H|]. split; assumption.
Qed.

Lemma detect_face_ok d frame use_tracking out :
  detector_ok d -> detector_ok (snd (detect_face d frame use_tracking out)).
Proof.
  intros Hd. unfold detect_face.
  destruct (use_tracking && tracking_active d && is_Some (last_bbox d));
    [|now apply full_detection_ok].
  destruct (_track_face d frame) as [b|]; [|now apply full_detection_ok].
  destruct Hd as (Hact & Hcnt & Hbox). unfold detector_ok.
  cbn [snd tracking_active last_bbox frames_since_detection].
  split; [exact Hact|]. split; [lia|exact Hbox].
Qed.

(** X1. Whatever sequence of [detect_face] and [reset_tracking] calls a
    detector has gone through since its construction, tracking is active
    only while a box is stored, the staleness counter is not negative and
    a stored box has no negative coordinate. *)
Theorem detector_state_invariant :
  forall min_conf calls,
    detector_ok (detector_calls (__init__ min_conf) calls).
Proof.
  intros min_conf calls.
  assert (H0 : detector_ok (__init__ min_conf)).
  { unfold detector_ok. cbn. repeat split; try discriminate; lia. }
  revert H0. unfold detector_calls.
  generalize (__init__ min_conf) as d.
  induction calls as [|c calls IH]; intros d Hd; [exact Hd|].
  cbn [fold_left]. apply IH. destruct c as [frame ut out|]; cbn [detector_call].
  - now apply detect_face_ok.
  - unfold detector_ok. cbn. repeat split; try discriminate; lia.
Qed.

(** X2. Every box [detect_face] returns, detected or reused, lies within
    the frame it was asked about: no negative corner, and the far corner
    not beyond the frame's width and height. *)
Theorem detect_face_box_within_frame :
  forall self frame use_tracking out x1 y1 x2 y2,
    fst (detect_face self frame use_tracking out) = Some (x1, y1, x2, y2) ->
    0 <= x1 /\ 0 <= y1 /\ x2 <= shape_w frame /\ y2 <= shape_h frame.
Proof.
  intros self frame ut out x1 y1 x2 y2.
  assert (Hdet : _detect_with_mtcnn self frame out = Some (x1, y1, x2, y2) ->
                 0 <= x1 /\ 0 <= y1 /\ x2 <= shape_w frame /\ y2 <= shape_h frame).
  { intros Ed.
    destruct (detect_some_inv _ _ _ _ Ed)
      as (bx1 & by1 & bx2 & by2 & rest & probs & _ & [= -> -> -> ->]).
    unfold clamp, shape_w, shape_h. lia. }
  unfold detect_face, full_detection.
  destruct (ut && tracking_active self && is_Some (last_bbox self)).
  - destruct (_track_face self frame) as [b|] eqn:Et.
    + cbn [fst]. intros [= ->]. revert Et. unfold _track_face.
      destruct (last_bbox self) as [[[[a1 b1] a2] b2]|]; [|discriminate].
      destruct (a2 >? shape_w frame) eqn:E1; [discriminate|].
      destruct (b2 >? shape_h frame) eqn:E2; [discriminate|].
      destruct (a1 <? 0) eqn:E3; [discriminate|].
      destruct (b1 <? 0) eqn:E4; [discriminate|].
      cbn [orb]. intros [= -> -> -> ->].
      rewrite Z.gtb_ltb in E1, E2.
      apply Z.ltb_ge in E1, E2, E3, E4. lia.
    + destruct (_detect_with_mtcnn self frame out) as [b|]; cbn [fst];
        [|discriminate].
      intros [= ->]. now apply Hdet.
  - destruct (_detect_with_mtcnn self frame out) as [b|]; cbn [fst];
      [|discriminate].
    intros [= ->]. now apply Hdet.
Qed.

Lemma detect_face_box_within_frame_witness :
  fst (detect_face Examples.fresh_detector Examples.frame_100 true
                   Examples.box_beyond_frame) = Some (99, 20, 99, 60) /\
  99 <= shape_w Examples.frame_100.
Proof.
  split; [reflexivity|].
  apply (detect_face_box_within_frame
           Examples.fresh_detector Examples.frame_100 true
           Examples.box_beyond_frame 99 20 99 60).
  reflexivity.
Defined.

End DetectorInvariants.

(** * The face crop (face_detector.py, extract_face_roi) *)

Section FaceCrop.

Import FaceDetector.

Lemma fl_nonneg z : 0 <= z -> (0 <= fl z)%Qc.
Proof.
  intros Hz. unfold fl, Qcle, Q2Qc. cbn [this].
  rewrite !Qred_correct. unfold Qle. cbn. lia.
Qed.

Lemma astype_int_nonneg q : (0 <= q)%Qc -> 0 <= astype_int q.
Proof.
  unfold Qcle, Qle, astype_int. cbn. intros H.
  apply Z.quot_pos; lia.
Qed.

Lemma pad_nonneg n padding :
  0 <= n -> (0 <= padding)%Qc -> 0 <= astype_int (fl n * padding)%Qc.
Proof.
  intros Hn Hp. apply astype_int_nonneg.
  rewrite <- (Qcmult_0_l padding).
  apply Qcmult_le_compat_r; [now apply fl_nonneg|exact Hp].
Qed.

Lemma pad_zero padding : astype_int (fl 0 * padding)%Qc = 0.
Proof.
  replace (fl 0 * padding)%Qc with 0%Qc; [reflexivity|].
  symmetry. apply Qcmult_0_l.
Qed.

(** The slice of an axis between two positions on it. *)
Lemma slice_len_inside a b n :
  0 <= a -> a <= b -> b <= n -> slice_len a b n = b - a.
Proof.
  intros Ha Hab Hb. unfold slice_len, slice_index.
  destruct (Z.ltb_spec a 0); destruct (Z.ltb_spec b 0); lia.
Qed.

(** X3. For a box lying within the frame, a frame with at least one
    channel and a padding that is not negative: a degenerate box (zero
    width or zero height) gives no crop, whatever [cv2.resize] would do;
    any other box gives a crop that contains the box, lies within the
    frame and keeps the channels, and [extract_face_roi] returns exactly
    what [cv2.resize] makes of that crop: the resized image, or the
    exception it raises. *)
Theorem extract_face_roi_inside_frame :
  forall cv2_resize frame x1 y1 x2 y2 target_size padding,
    0 <= x1 -> x1 <= x2 -> x2 <= shape_w frame ->
    0 <= y1 -> y1 <= y2 -> y2 <= shape_h frame ->
    1 <= shape_c frame ->
    (0 <= padding)%Qc ->
    (x1 = x2 \/ y1 = y2 ->
     extract_face_roi cv2_resize frame (x1, y1, x2, y2) target_size padding
     = inr None) /\
    (x1 < x2 -> y1 < y2 ->
     let roi := face_roi frame (x1, y1, x2, y2) padding in
     x2 - x1 <= shape_w roi <= shape_w frame /\
     y2 - y1 <= shape_h roi <= shape_h frame /\
     shape_c roi = shape_c frame /\
     extract_face_roi cv2_resize frame (x1, y1, x2, y2) target_size padding
     = match cv2_resize roi target_size with
       | inl e => inl e
       | inr face_resized => inr (Some face_resized)
       end).
Proof.
  intros resize frame x1 y1 x2 y2 target padding Hx1 Hx Hx2 Hy1 Hy Hy2 Hc Hp.
  pose proof (pad_nonneg (x2 - x1) padding ltac:(lia) Hp) as Hpw.
  pose proof (pad_nonneg (y2 - y1) padding ltac:(lia) Hp) as Hph.
  assert (Hh : shape_h (face_roi frame (x1, y1, x2, y2) padding)
               = Z.min (shape_h frame)
                       (y2 + astype_int (fl (y2 - y1) * padding)%Qc)
                 - Z.max 0 (y1 - astype_int (fl (y2 - y1) * padding)%Qc)).
  { unfold face_roi. cbv zeta. unfold shape_h at 1. cbn [rows].
    rewrite slice_len_inside by lia.
    rewrite Z2N.id by lia. reflexivity. }
  assert (Hw : shape_w (face_roi frame (x1, y1, x2, y2) padding)
               = Z.min (shape_w frame)
                       (x2 + astype_int (fl (x2 - x1) * padding)%Qc)
                 - Z.max 0 (x1 - astype_int (fl (x2 - x1) * padding)%Qc)).
  { unfold face_roi. cbv zeta. unfold shape_w at 1. cbn [cols].
    rewrite slice_len_inside by lia.
    rewrite Z2N.id by lia. reflexivity. }
  assert (Hch : shape_c (face_roi frame (x1, y1, x2, y2) padding)
                = shape_c frame) by reflexivity.
  unfold extract_face_roi. cbv zeta. rewrite Hh, Hw, Hch.
  set (pad_w := astype_int (fl (x2 - x1) * padding)%Qc) in *.
  set (pad_h := astype_int (fl (y2 - y1) * padding)%Qc) in *.
  split.
  - intros Hdeg.
    assert (Hzero : (Z.min (shape_h frame) (y2 + pad_h) - Z.max 0 (y1 - pad_h))
                    * (Z.min (shape_w frame) (x2 + pad_w)
                       - Z.max 0 (x1 - pad_w)) = 0).
    { destruct Hdeg as [-> | ->].
      - assert (E0 : pad_w = 0).
        { subst pad_w. rewrite Z.sub_diag. apply pad_zero. }
        rewrite E0.
        replace (Z.min (shape_w frame) (x2 + 0) - Z.max 0 (x2 - 0)) with 0
          by lia.
        apply Z.mul_0_r.
      - assert (E0 : pad_h = 0).
        { subst pad_h. rewrite Z.sub_diag. apply pad_zero. }
        rewrite E0.
        replace (Z.min (shape_h frame) (y2 + 0) - Z.max 0 (y2 - 0)) with 0
          by lia.
        apply Z.mul_0_l. }
    rewrite Hzero. reflexivity.
  - intros Hlx Hly.
    split; [lia|]. split; [lia|]. split; [reflexivity|].
    destruct (Z.eqb_spec
                ((Z.min (shape_h frame) (y2 + pad_h) - Z.max 0 (y1 - pad_h))
                 * (Z.min (shape_w frame) (x2 + pad_w) - Z.max 0 (x1 - pad_w))
                 * shape_c frame) 0) as [E|_]; [|reflexivity].
    exfalso.
    apply Z.mul_eq_0 in E. destruct E as [E|E]; [|lia].
    apply Z.mul_eq_0 in E. lia.
Qed.

Lemma extract_face_roi_inside_frame_witness :
  extract_face_roi Examples.cv2_resize Examples.frame_100 (20, 30, 80, 90) 256
                   App.default_padding
  = inr (Some (mkFrame 256%N 256%N 3%N)) /\
  shape_w (face_roi Examples.frame_100 (20, 30, 80, 90) App.default_padding)
  <= 100.
Proof.
  destruct (extract_face_roi_inside_frame
              Examples.cv2_resize Examples.frame_100 20 30 80 90 256
              App.default_padding) as [_ H];
    try (cbn; lia); [discriminate|].
  destruct H as ((_ & Hw) & _ & _ & H); [lia|lia|].
  split; [exact H | exact Hw].
Defined.

End FaceCrop.

(** * The detector inside process_frame (app.py) *)

Section TrackingPolicy.

Import FaceDetector App.

(** X4. With tracking enabled, after any [process_frame] the staleness
    counter is at most the redetect interval (at most 0 for an interval
    that is not positive): the stored box is never reused for more than
    [redetect_interval] frames in a row. *)
Theorem process_frame_bounds_staleness :
  forall env frame s,
    enable_tracking (config s) = true ->
    frames_since_detection (face_detector (fst (process_frame env frame s)))
    <= Z.max 0 (redetect_interval (config s)).
Proof.
  intros env frame s Htrack.
  rewrite process_frame_detector, Htrack. cbn [andb].
  unfold should_redetect.
  destruct (Z.geb_spec (frames_since_detection (face_detector s))
                       (redetect_interval (config s))) as [Hdue|Hnot].
  - unfold detect_face, full_detection.
    cbn [reset_tracking tracking_active andb last_bbox is_Some].
    destruct (_detect_with_mtcnn _ frame (detection env)); cbn; lia.
  - unfold detect_face, full_detection.
    destruct (true && tracking_active (face_detector s)
              && is_Some (last_bbox (face_detector s))).
    + destruct (_track_face (face_detector s) frame).
      * cbn. lia.
      * destruct (_detect_with_mtcnn _ frame (detection env)); cbn; lia.
    + destruct (_detect_with_mtcnn _ frame (detection env)); cbn; lia.
Qed.

Lemma process_frame_bounds_staleness_witness :
  frames_since_detection
    (face_detector
       (fst (process_frame
               (mkWorkerEnv Examples.sees_nothing (PredictReturns None)
                            (fl 0) (fl 0) (Examples.probe_at (fl 1))
                            (Examples.probe_at (fl 1)) Examples.cv2_resize)
               Examples.frame_100 (Examples.server_with_stride 1))))
  <= Z.max 0 (redetect_interval (config (Examples.server_with_stride 1))).
Proof.
  apply (process_frame_bounds_staleness
           (mkWorkerEnv Examples.sees_nothing (PredictReturns None)
                        (fl 0) (fl 0) (Examples.probe_at (fl 1))
                        (Examples.probe_at (fl 1)) Examples.cv2_resize)
           Examples.frame_100 (Examples.server_with_stride 1)).
  reflexivity.
Defined.

(** What [process_frame] leaves in [last_face_bbox]: the box of this
    frame when there is one, the old value otherwise. *)
Lemma process_frame_last_face_bbox env frame s :
  last_face_bbox (fst (process_frame env frame s))
  = match fst (detect_face
                 (if enable_tracking (config s)
                     && should_redetect (face_detector s)
                          (redetect_interval (config s))
                  then reset_tracking (face_detector s)
                  else face_detector s)
                 frame (enable_tracking (config s)) (detection env)) with
    | Some bbox => Some bbox
    | None => last_face_bbox s
    end.
Proof.
  unfold process_frame, end_frame_then, process_frame_except, returns.
  cbv zeta.
  destruct (detect_face _ frame _ _) as [[bbox|] d]; cbn [fst].
  - case_matches; reflexivity.
  - case_matches; reflexivity.
Qed.

(** X5. After a recalibration the next processed frame never reuses the
    old box: the detector runs, and [last_face_bbox] and the detector's
    stored box are exactly what the network found on that frame (nothing,
    if it found no face). *)
Theorem recalibrate_forces_detection :
  forall env frame s,
    let s' := fst (process_frame env frame (handle_recalibrate s)) in
    last_face_bbox s'
    = _detect_with_mtcnn (face_detector s) frame (detection env) /\
    last_bbox (face_detector s')
    = _detect_with_mtcnn (face_detector s) frame (detection env) /\
    tracking_active (face_detector s')
    = is_Some (_detect_with_mtcnn (face_detector s) frame (detection env)) /\
    frames_since_detection (face_detector s') = 0.
Proof.
  intros env frame s s'. subst s'.
  rewrite process_frame_last_face_bbox, process_frame_detector.
  unfold handle_recalibrate.
  cbn [config face_detector last_face_bbox emit with_bbox with_detector].
  assert (E : forall d,
             tracking_active d = false ->
             detect_face d frame (enable_tracking (config s)) (detection env)
             = full_detection d frame (detection env)).
  { intros d Hd. unfold detect_face. now rewrite Hd, andb_false_r. }
  assert (R : (if enable_tracking (config s)
                  && should_redetect (reset_tracking (face_detector s))
                       (redetect_interval (config s))
               then reset_tracking (reset_tracking (face_detector s))
               else reset_tracking (face_detector s))
              = reset_tracking (face_detector s)).
  { now destruct (_ && _). }
  rewrite R, E by reflexivity.
  unfold full_detection.
  change (_detect_with_mtcnn (reset_tracking (face_detector s)) frame
                             (detection env))
    with (_detect_with_mtcnn (face_detector s) frame (detection env)).
  destruct (_detect_with_mtcnn (face_detector s) frame (detection env));
    cbn; auto.
Qed.

End TrackingPolicy.

(** * Further properties of the metrics window (logger.py) *)

Section WindowInvariants.

Import PerformanceLogger LoggerTraces.

Lemma deque_append_length x d :
  (length (Deque.items d) <= Deque.maxlen d)%nat ->
  length (Deque.items (Deque.append x d))
  = Nat.min (Deque.maxlen d) (Datatypes.S (length (Deque.items d))).
Proof.
  intros H. unfold Deque.append. cbn [Deque.items].
  rewrite length_skipn, length_app. cbn [length]. lia.
Qed.

Lemma end_frame_windows_ok p success l :
  windows_ok l -> windows_ok (fst (end_frame p success l)).
Proof.
  intros (Hm & Hl & Hb).
  destruct (start_time l) as [started|] eqn:Hs.
  - destruct (end_frame_fields p success l started Hs)
      as (_ & Hft & Hpt & _).
    unfold windows_ok. rewrite Hft, Hpt. unfold update_metrics.
    destruct success; cbn [frame_times processing_times]; [|auto].
    assert (Hbf : (length (Deque.items (frame_times l))
                   <= Deque.maxlen (frame_times l))%nat) by lia.
    rewrite !deque_append_length by assumption.
    cbn [Deque.append Deque.maxlen]. repeat split; lia.
  - unfold end_frame. rewrite Hs. cbn. now repeat split.
Qed.

(** X6. Whatever calls of [start_frame], [end_frame] and [reset] a logger
    has seen since its construction, its two windows hold the same number
    of samples, never more than [window_size]. (So the snapshot never
    averages one window over a different number of samples than the
    other.) *)
Theorem logger_windows_invariant :
  forall window_size log_interval clock calls,
    let l := logger_calls (__init__ window_size log_interval clock) calls in
    windows_ok l /\
    Deque.maxlen (processing_times l) = window_size.
Proof.
  intros window_size li clock calls.
  assert (H0 : windows_ok (__init__ window_size li clock) /\
               Deque.maxlen (processing_times (__init__ window_size li clock))
               = window_size).
  { unfold windows_ok. cbn. repeat split; lia. }
  revert H0. unfold logger_calls.
  generalize (__init__ window_size li clock) as l.
  induction calls as [|c calls IH]; intros l Hl; [exact Hl|].
  cbn [fold_left]. apply IH. destruct Hl as [Hok Hm].
  destruct c as [t|p success|c1 c2]; cbn [logger_call].
  - split; [exact Hok|exact Hm].
  - split; [now apply end_frame_windows_ok|].
    destruct (start_time l) as [started|] eqn:Hs.
    + destruct (end_frame_fields p success l started Hs)
        as (_ & _ & Hpt & _).
      rewrite Hpt. unfold update_metrics.
      destruct success; cbn; exact Hm.
    + unfold end_frame. rewrite Hs. exact Hm.
  - destruct Hok as (H1 & _ & _). unfold windows_ok. cbn.
    repeat split; try assumption; lia.
Qed.

Lemma lastn_all {A} n (l : list A) :
  (length l <= n)%nat -> lastn n l = l.
Proof.
  intros H. unfold lastn.
  replace (length l - n)%nat with 0%nat by lia. reflexivity.
Qed.

Lemma lastn_snoc {A} n (l : list A) x :
  lastn n (lastn n l ++ [x]) = lastn n (l ++ [x]).
Proof.
  destruct (Nat.le_gt_cases (length l) n) as [Hle|Hgt].
  - now rewrite (lastn_all n l).
  - unfold lastn. rewrite !length_app, length_skipn. cbn [length].
    destruct n as [|n].
    + rewrite !skipn_all2; [reflexivity| |];
        rewrite ?length_app, ?length_skipn; cbn [length]; lia.
    + rewrite !skipn_app, skipn_skipn, length_skipn.
      replace (length l - (length l - Datatypes.S n) + 1 - Datatypes.S n
               + (length l - Datatypes.S n))%nat
        with (length l + 1 - Datatypes.S n)%nat by lia.
      replace (length l - (length l - Datatypes.S n) + 1 - Datatypes.S n
               - (length l - (length l - Datatypes.S n)))%nat
        with 0%nat by lia.
      replace (length l + 1 - Datatypes.S n - length l)%nat with 0%nat by lia.
      reflexivity.
Qed.

Lemma deque_append_lastn x d :
  Deque.items (Deque.append x d)
  = lastn (Deque.maxlen d) (Deque.items d ++ [x]).
Proof. reflexivity. Qed.

Lemma record_all_window frames : forall l history,
  Deque.items (processing_times l)
  = lastn (Deque.maxlen (processing_times l)) history ->
  Deque.items (processing_times (record_all frames l))
  = lastn (Deque.maxlen (processing_times l))
          (history ++ map measured frames) /\
  Deque.maxlen (processing_times (record_all frames l))
  = Deque.maxlen (processing_times l).
Proof.
  induction frames as [|frame frames IH]; intros l history Hl.
  - cbn. now rewrite app_nil_r.
  - cbn [record_all fold_left map].
    destruct (record_success_fields (fst frame) (snd frame) l)
      as (_ & Hpt & _).
    set (l1 := fst (end_frame (snd frame) true (start_frame (fst frame) l)))
      in *.
    assert (Hm : Deque.maxlen (processing_times l1)
                 = Deque.maxlen (processing_times l)) by now rewrite Hpt.
    destruct (IH l1 (history ++ [measured frame])) as (Hi & Hm').
    { rewrite Hm, Hpt, deque_append_lastn, Hl. apply lastn_snoc. }
    fold (record_all frames l1).
    rewrite Hi, Hm', Hm, <- app_assoc. split; reflexivity.
Qed.

(** X7. The window is a sliding one: after any number of frames recorded
    as successes, [processing_times] holds the most recent [window_size]
    measured processing times (those it held before followed by the new
    ones), oldest first. *)
Theorem window_keeps_most_recent :
  forall frames l,
    (length (Deque.items (processing_times l))
     <= Deque.maxlen (processing_times l))%nat ->
    Deque.items (processing_times (record_all frames l))
    = lastn (Deque.maxlen (processing_times l))
            (Deque.items (processing_times l) ++ map measured frames).
Proof.
  intros frames l Hb.
  apply (record_all_window frames l (Deque.items (processing_times l))).
  now rewrite lastn_all.
Qed.

Lemma window_keeps_most_recent_witness :
  Deque.items
    (processing_times
       (record_all
          [ (Q2Qc (9 # 100), Examples.probe_at (Q2Qc (10 # 100)));
            (Q2Qc (18 # 100), Examples.probe_at (Q2Qc (20 # 100)));
            (Q2Qc (27 # 100), Examples.probe_at (Q2Qc (30 # 100))) ]
          (__init__ 2 30 (fl 0))))
  = lastn 2
      (map measured
         [ (Q2Qc (9 # 100), Examples.probe_at (Q2Qc (10 # 100)));
           (Q2Qc (18 # 100), Examples.probe_at (Q2Qc (20 # 100)));
           (Q2Qc (27 # 100), Examples.probe_at (Q2Qc (30 # 100))) ]).
Proof.
  apply (window_keeps_most_recent
           [ (Q2Qc (9 # 100), Examples.probe_at (Q2Qc (10 # 100)));
             (Q2Qc (18 # 100), Examples.probe_at (Q2Qc (20 # 100)));
             (Q2Qc (27 # 100), Examples.probe_at (Q2Qc (30 # 100))) ]
           (__init__ 2 30 (fl 0))).
  cbn. lia.
Defined.

End WindowInvariants.

Section FrameAccounting.

Import PerformanceLogger.

(** X8. Under a non-zero log interval a started frame is accounted for
    exactly once: its [end_frame] adds one to [frame_count] on success and
    one to [dropped_frames] on failure (and leaves the other counter
    alone), clears the pending start, and any further [end_frame] before
    the next [start_frame] changes nothing. *)
Theorem started_frame_counted_once :
  forall p success p' success' l started,
    log_interval l <> 0 ->
    start_time l = Some started ->
    let l1 := fst (end_frame p success l) in
    snd (end_frame p success l) = None /\
    frame_count l1 = (if success then frame_count l + 1 else frame_count l) /\
    dropped_frames l1
    = (if success then dropped_frames l else dropped_frames l + 1) /\
    start_time l1 = None /\
    end_frame p' success' l1 = (l1, None).
Proof.
  intros p success p' success' l started Hli Hs l1.
  assert (Hstart : start_time l1 = None).
  { subst l1. unfold end_frame. rewrite Hs.
    set (done := update_metrics _ _ _ _ _).
    assert (Hd : log_interval done = log_interval l)
      by (subst done; unfold update_metrics; now destruct success).
    unfold py_mod. rewrite Hd.
    destruct (Z.eqb_spec (log_interval l) 0); [contradiction|].
    reflexivity. }
  destruct (end_frame_fields p success l started Hs)
    as (_ & _ & _ & Hfc & Hdf & _).
  fold l1 in Hfc, Hdf.
  split; [now apply end_frame_no_raise|].
  split; [rewrite Hfc; unfold update_metrics; now destruct success|].
  split; [rewrite Hdf; unfold update_metrics; now destruct success|].
  split; [exact Hstart|].
  unfold end_frame. now rewrite Hstart.
Qed.

Lemma started_frame_counted_once_witness :
  dropped_frames Examples.logger_after_skip = 1 /\
  start_time Examples.logger_after_skip = None.
Proof.
  destruct (started_frame_counted_once
              (Examples.probe_at (Q2Qc (11 # 1000))) false
              (Examples.probe_at (fl 1)) true
              (start_frame (Q2Qc (10 # 1000)) Examples.fresh_logger)
              (Q2Qc (10 # 1000)))
    as (_ & _ & Hd & Hs & _); [discriminate | reflexivity |].
  split; [exact Hd | exact Hs].
Defined.

(** X9. The periodic log line is tied to the success count, not to
    successes: under a non-zero log interval, an [end_frame] with a start
    pending writes one line exactly when, after its update, [frame_count]
    is a multiple of [log_interval] and the window is not empty (and no
    line otherwise). A failed frame therefore writes a line too whenever
    the count it leaves unchanged is such a multiple. *)
Theorem log_line_cadence :
  forall p success l started,
    log_interval l <> 0 ->
    start_time l = Some started ->
    let l1 := fst (end_frame p success l) in
    length (logged l1)
    = (length (logged l)
       + if (frame_count l1 mod log_interval l =? 0)%Z
            && negb (Deque.len (processing_times l1) =? 0)%nat
         then 1 else 0)%nat /\
    (success = false ->
     frame_count l mod log_interval l = 0 ->
     Deque.items (processing_times l) <> [] ->
     exists line,
       logged l1 = logged l ++ [line] /\
       ll_frames line = frame_count l /\
       ll_dropped line = dropped_frames l + 1).
Proof.
  intros p success l started Hli Hs l1.
  assert (E : l1 = clear_start
                     (let done := update_metrics success
                                    ((now p - started) * fl 1000)%Qc
                                    ((now p - last_frame_time l) * fl 1000)%Qc
                                    (now p) l in
                      if frame_count done mod log_interval l =? 0
                      then _log_metrics p done else done)).
  { subst l1. unfold end_frame. rewrite Hs. cbv zeta.
    set (done := update_metrics _ _ _ _ _).
    assert (Hd : log_interval done = log_interval l)
      by (subst done; unfold update_metrics; now destruct success).
    unfold py_mod. rewrite Hd.
    destruct (Z.eqb_spec (log_interval l) 0); [contradiction|].
    reflexivity. }
  cbv zeta in E.
  set (done := update_metrics success ((now p - started) * fl 1000)%Qc
                 ((now p - last_frame_time l) * fl 1000)%Qc (now p) l) in *.
  assert (Hlog : logged done = logged l)
    by (subst done; unfold update_metrics; now destruct success).
  split.
  - rewrite E.
    destruct (frame_count done mod log_interval l =? 0) eqn:Hm.
    + unfold _log_metrics.
      destruct (Deque.len (processing_times done) =? 0)%nat eqn:Hw;
        cbn [clear_start frame_count processing_times logged];
        rewrite Hm, Hw; cbn [andb negb].
      * rewrite Hlog. lia.
      * rewrite length_app, Hlog. reflexivity.
    + cbn [clear_start frame_count processing_times logged].
      rewrite Hm. cbn [andb]. rewrite Hlog. lia.
  - intros -> Hmul Hne.
    assert (Hfc : frame_count done = frame_count l) by reflexivity.
    assert (Hpt : processing_times done = processing_times l) by reflexivity.
    rewrite E, Hfc, Hmul. cbn [Z.eqb].
    unfold _log_metrics, Deque.len. rewrite Hpt.
    destruct (Deque.items (processing_times l)) as [|x xs] eqn:Hi;
      [contradiction|].
    cbn [length Nat.eqb]. eexists.
    cbn [clear_start logged]. rewrite Hlog.
    split; [reflexivity|]. split; reflexivity.
Qed.

Lemma log_line_cadence_witness :
  length (logged Examples.logger_after_skip) = 0%nat.
Proof.
  destruct (log_line_cadence
              (Examples.probe_at (Q2Qc (11 # 1000))) false
              (start_frame (Q2Qc (10 # 1000)) Examples.fresh_logger)
              (Q2Qc (10 # 1000)))
    as (Hlen & _); [discriminate | reflexivity |].
  exact Hlen.
Defined.

End FrameAccounting.

(** * Further properties of the handlers (app.py) *)

Section HandlerAccounting.

Import FramePreprocessor App Outcomes.

Variable codec : Codec.

(** X10. Under a usable configuration (non-zero stride and log interval)
    [handle_frame] loses no frame: over any run of ['frame'] events, each
    event is either submitted to the pool or counted as dropped, never
    both and never neither; the frame counter counts them all and running
    tasks are left alone. *)
Theorem handle_frames_conservation :
  forall stride events s,
    stride <> 0 ->
    well_configured stride s ->
    let s' := handle_frames codec events s in
    frame_counter s' = frame_counter s + Z.of_nat (length events) /\
    Z.of_nat (length (ThreadPool.work_queue (thread_pool s')))
    + dropped s'
    = Z.of_nat (length (ThreadPool.work_queue (thread_pool s)))
      + dropped s + Z.of_nat (length events) /\
    dropped s <= dropped s' /\
    (exists submitted,
        ThreadPool.work_queue (thread_pool s')
        = ThreadPool.work_queue (thread_pool s) ++ submitted) /\
    ThreadPool.running (thread_pool s') = ThreadPool.running (thread_pool s).
Proof.
  intros stride events s HS. revert s.
  induction events as [|[env data] events IH]; intros s Hwc.
  - cbn. repeat split; try lia. exists []. now rewrite app_nil_r.
  - cbn [handle_frames].
    destruct (handle_frame_step codec stride env data s Hwc HS)
      as (Hwc1 & Hc1 & Hp1).
    set (s1 := fst (handle_frame codec env data s)) in *.
    destruct (IH s1 Hwc1) as (Hc & Hsum & Hmono & (sub & Hq) & Hr).
    assert (H1 : (thread_pool s1 = thread_pool s /\ dropped s1 = dropped s + 1)
                 \/ (exists frame,
                        thread_pool s1
                        = ThreadPool.submit frame (thread_pool s)
                        /\ dropped s1 = dropped s)).
    { destruct (Spec.admitted stride (frame_counter s + 1)).
      - destruct (decoded_frame codec data) as [frame|].
        + right. exists frame. now injection Hp1.
        + left. now injection Hp1.
      - left. now injection Hp1. }
    cbv zeta. cbn [length].
    destruct H1 as [[Hp Hd] | (frame & Hp & Hd)].
    + rewrite Hp in *. repeat split; try lia; try assumption.
      now exists sub.
    + rewrite Hp in *. cbn [ThreadPool.submit ThreadPool.work_queue
                             ThreadPool.running] in *.
      rewrite length_app in Hsum. cbn [length] in Hsum.
      repeat split; try lia; try assumption.
      exists (frame :: sub). now rewrite Hq, <- app_assoc.
Qed.

(** The tail of every path of [process_frame]: one event is sent and
    [end_frame] is called once. *)
Lemma process_frame_finish env s0 ev success :
  (forall p b, snd (PerformanceLogger.end_frame p b (perf_logger s0)) = None) ->
  let r := end_frame_then (w_end env) success (process_frame_except env)
             returns (emit ev s0) in
  snd r = None /\
  outbox (fst r) = outbox s0 ++ [ev] /\
  perf_logger (fst r)
  = fst (PerformanceLogger.end_frame (w_end env) success (perf_logger s0)) /\
  thread_pool (fst r) = thread_pool s0 /\
  frame_counter (fst r) = frame_counter s0.
Proof.
  intros Hn r. subst r. unfold end_frame_then, returns.
  cbn [perf_logger emit].
  pose proof (Hn (w_end env) success) as H.
  destruct (PerformanceLogger.end_frame (w_end env) success (perf_logger s0))
    as [l [e|]]; [discriminate H|].
  cbn. auto.
Qed.

Lemma process_frame_except_finish env s0 e :
  (forall p b, snd (PerformanceLogger.end_frame p b (perf_logger s0)) = None) ->
  let r := process_frame_except env e s0 in
  snd r = None /\
  outbox (fst r) = outbox s0 ++ [error (ProcessingError e)] /\
  perf_logger (fst r)
  = fst (PerformanceLogger.end_frame (w_except env) false (perf_logger s0)) /\
  thread_pool (fst r) = thread_pool s0 /\
  frame_counter (fst r) = frame_counter s0.
Proof.
  intros Hn r. subst r. unfold process_frame_except.
  cbn [perf_logger emit].
  pose proof (Hn (w_except env) false) as H.
  destruct (PerformanceLogger.end_frame (w_except env) false (perf_logger s0))
    as [l r]. cbn in H. subst r. cbn. auto.
Qed.

(** Every run of [process_frame] whose [end_frame] cannot raise. *)
Lemma process_frame_outcome env frame s :
  (forall p b, snd (PerformanceLogger.end_frame p b (perf_logger s)) = None) ->
  let r := process_frame env frame s in
  snd r = None /\
  exists ev success p,
    outbox (fst r) = outbox s ++ [ev] /\
    perf_logger (fst r)
    = fst (PerformanceLogger.end_frame p success (perf_logger s)) /\
    success = is_mesh_update ev /\
    thread_pool (fst r) = thread_pool s /\
    frame_counter (fst r) = frame_counter s.
Proof.
  intros Hn r. subst r. unfold process_frame. cbv zeta.
  destruct (FaceDetector.detect_face _ frame _ _) as [[bbox|] d].
  - destruct (FaceDetector.extract_face_roi _ frame bbox _ _) as [e|[roi|]].
    + destruct (process_frame_except_finish env
                  (with_bbox (Some bbox) (with_detector d s)) e Hn)
        as (H1 & H2 & H3 & H4 & H5).
      split; [exact H1|].
      exists (error (ProcessingError e)), false, (w_except env). auto.
    + destruct (prediction env) as [e|[mesh|]].
      * destruct (process_frame_except_finish env
                    (with_bbox (Some bbox) (with_detector d s)) e Hn)
          as (H1 & H2 & H3 & H4 & H5).
        split; [exact H1|].
        exists (error (ProcessingError e)), false, (w_except env). auto.
      * match goal with
        | |- context [emit ?ev _] =>
            destruct (process_frame_finish env
                        (with_bbox (Some bbox) (with_detector d s)) ev true Hn)
              as (H1 & H2 & H3 & H4 & H5);
            split; [exact H1|]; exists ev, true, (w_end env); auto
        end.
      * match goal with
        | |- context [emit ?ev _] =>
            destruct (process_frame_finish env
                        (with_bbox (Some bbox) (with_detector d s)) ev false Hn)
              as (H1 & H2 & H3 & H4 & H5);
            split; [exact H1|]; exists ev, false, (w_end env); auto
        end.
    + match goal with
      | |- context [emit ?ev _] =>
          destruct (process_frame_finish env
                      (with_bbox (Some bbox) (with_detector d s)) ev false Hn)
            as (H1 & H2 & H3 & H4 & H5);
          split; [exact H1|]; exists ev, false, (w_end env); auto
      end.
  - match goal with
    | |- context [emit ?ev _] =>
        destruct (process_frame_finish env (with_detector d s) ev false Hn)
          as (H1 & H2 & H3 & H4 & H5);
        split; [exact H1|]; exists ev, false, (w_end env); auto
    end.
Qed.

(** X11. Under a non-zero log interval [process_frame] never lets an
    exception out, whatever the detector and the model do; it sends
    exactly one event and calls [end_frame] exactly once, with
    [success=True] exactly when that event is a [mesh_update]; it leaves
    the pool and the frame counter alone. With the frame's start pending
    this is one more in [frame_count] for a mesh and one more in
    [dropped_frames] for anything else. *)
Theorem process_frame_one_event_one_sample :
  forall env frame s started,
    PerformanceLogger.log_interval (perf_logger s) <> 0 ->
    PerformanceLogger.start_time (perf_logger s) = Some started ->
    let r := process_frame env frame s in
    snd r = None /\
    thread_pool (fst r) = thread_pool s /\
    frame_counter (fst r) = frame_counter s /\
    exists ev,
      outbox (fst r) = outbox s ++ [ev] /\
      PerformanceLogger.frame_count (perf_logger (fst r))
      = PerformanceLogger.frame_count (perf_logger s)
        + (if is_mesh_update ev then 1 else 0) /\
      dropped (fst r) = dropped s + (if is_mesh_update ev then 0 else 1).
Proof.
  intros env frame s started Hli Hs r.
  destruct (process_frame_outcome env frame s) as (Hr & ev & b & p & H).
  { intros p b. now apply end_frame_no_raise. }
  destruct H as (Hout & Hlog & Hb & Hpool & Hcnt).
  fold r in Hr, Hout, Hlog, Hpool, Hcnt.
  split; [exact Hr|]. split; [exact Hpool|]. split; [exact Hcnt|].
  exists ev. split; [exact Hout|].
  destruct (started_frame_counted_once p b p b (perf_logger s) started Hli Hs)
    as (_ & Hfc & Hdf & _).
  unfold dropped. rewrite Hlog, Hfc, Hdf, Hb.
  destruct (is_mesh_update ev); split; lia.
Qed.


End HandlerAccounting.

Lemma handle_frames_conservation_witness :
  App.frame_counter
    (App.handle_frames Examples.codec Examples.two_frames
                       (Examples.server_with_stride 2))
  = App.frame_counter (Examples.server_with_stride 2)
    + Z.of_nat (length Examples.two_frames).
Proof.
  apply (handle_frames_conservation
           Examples.codec 2 Examples.two_frames
           (Examples.server_with_stride 2));
    [discriminate | split; [reflexivity | discriminate]].
Defined.

Lemma process_frame_one_event_one_sample_witness :
  PerformanceLogger.log_interval
    (App.perf_logger Scenarios.server_with_queued_frame) <> 0 /\
  PerformanceLogger.start_time
    (App.perf_logger Scenarios.server_with_queued_frame)
  = Some (Q2Qc (10 # 1000)) /\
  snd (App.process_frame Scenarios.worker_env Examples.frame_100
                         Scenarios.server_with_queued_frame) = None.
Proof.
  split; [discriminate|]. split; [reflexivity|].
  apply (process_frame_one_event_one_sample
           Scenarios.worker_env Examples.frame_100
           Scenarios.server_with_queued_frame (Q2Qc (10 # 1000)));
    [discriminate | reflexivity].
Defined.


(** The frame queued at stride 1 is processed into a mesh update and
    counted as a success. *)
Example process_queued_frame :
  let r := App.process_frame Scenarios.worker_env Examples.frame_100
                             Scenarios.server_with_queued_frame in
  map Outcomes.is_mesh_update (App.outbox (fst r)) = [true] /\
  PerformanceLogger.frame_count (App.perf_logger (fst r)) = 1 /\
  App.last_face_bbox (fst r) = Some (20, 30, 80, 90).
Proof. repeat split; reflexivity. Qed.


(** * The data-URL header (preprocessor.py, decode_frame) *)

Section DataUrl.

Import FramePreprocessor Text.

Local Open Scope string_scope.

Lemma substring_whole s : substring 0 (String.length s) s = s.
Proof. induction s as [|c s IH]; cbn; [reflexivity | now rewrite IH]. Qed.

Lemma prefix_cons_true a s1 b s2 :
  prefix (String a s1) (String b s2) = true -> a = b /\ prefix s1 s2 = true.
Proof.
  cbn [prefix]. destruct (ascii_dec a b); [auto|discriminate].
Qed.

(** A string that begins with a text free of commas does not begin with
    the marker, when the marker follows that text. *)
Lemma no_marker_at_header c header rest :
  mentions "," (String c header) = false ->
  prefix base64_marker (String c header ++ base64_marker ++ rest) = false.
Proof.
  intros H.
  destruct (prefix _ _) eqn:P; [exfalso|reflexivity].
  unfold base64_marker in P. cbn [append] in P.
  apply prefix_cons_true in P. destruct P as [_ P].
  do 5 (destruct header as [|? header]; cbn [append] in P;
        [apply prefix_cons_true in P; destruct P as [E _]; discriminate E|];
        apply prefix_cons_true in P; destruct P as [_ P]).
  destruct header as [|c7 header]; cbn [append] in P;
    [apply prefix_cons_true in P; destruct P as [E _]; discriminate E|].
  apply prefix_cons_true in P. destruct P as [E _].
  rewrite <- E in H. cbn in H. rewrite ?orb_true_r in H. discriminate H.
Qed.

Lemma prefix_cons_same a s1 s2 :
  prefix (String a s1) (String a s2) = prefix s1 s2.
Proof. cbn [prefix]. destruct (ascii_dec a a); congruence. Qed.

Lemma prefix_marker_self rest :
  prefix base64_marker (base64_marker ++ rest) = true.
Proof.
  unfold base64_marker. cbn [append]. rewrite !prefix_cons_same.
  now destruct rest.
Qed.

Lemma index_0_cons s1 b s2 :
  index 0 s1 (String b s2)
  = if prefix s1 (String b s2) then Some 0%nat
    else match index 0 s1 s2 with
         | Some n => Some (Datatypes.S n)
         | None => None
         end.
Proof. reflexivity. Qed.

Lemma index_after_header header : forall rest,
  mentions "," header = false ->
  index 0 base64_marker (header ++ base64_marker ++ rest)
  = Some (String.length header).
Proof.
  induction header as [|c header IH]; intros rest H.
  - pose proof (prefix_marker_self rest) as P.
    unfold base64_marker in *. cbn [append] in *.
    now rewrite index_0_cons, P.
  - assert (Hh : mentions "," header = false).
    { cbn in H. now apply orb_false_elim in H. }
    pose proof (no_marker_at_header c header rest H) as P.
    cbn [append] in *. rewrite index_0_cons, P.
    now rewrite IH.
Qed.

Lemma length_append_marker header rest :
  String.length (header ++ base64_marker ++ rest)
  = (String.length header + 7 + String.length rest)%nat.
Proof.
  induction header as [|c header IH]; cbn; [reflexivity|].
  cbn in IH. now rewrite IH.
Qed.

Lemma substring_after_header header : forall rest,
  substring (String.length header + 7) (String.length rest)
            (header ++ base64_marker ++ rest) = rest.
Proof.
  induction header as [|c header IH]; intros rest.
  - cbn. apply substring_whole.
  - cbn [String.length Nat.add append]. cbn [substring]. apply IH.
Qed.

(** X13. The data-URL header is optional. For a header free of commas
    and a payload in which ["base64,"] does not occur, [decode_frame]
    decodes [header ++ "base64," ++ payload] exactly as it decodes
    [payload] alone: the codec is given [payload] in both cases. *)
Theorem decode_frame_data_url :
  forall codec header payload,
    mentions "," header = false ->
    index 0 base64_marker payload = None ->
    strip_data_url (header ++ base64_marker ++ payload) = payload /\
    strip_data_url payload = payload /\
    decode_frame codec (PyStr (header ++ base64_marker ++ payload))
    = b64_image codec payload /\
    decode_frame codec (PyStr payload) = b64_image codec payload.
Proof.
  intros codec header payload Hh Hp.
  assert (E1 : strip_data_url (header ++ base64_marker ++ payload) = payload).
  { unfold strip_data_url.
    rewrite index_after_header by exact Hh.
    rewrite length_append_marker.
    change (String.length base64_marker) with 7%nat.
    replace (String.length header + 7 + String.length payload
             - (String.length header + 7))%nat
      with (String.length payload) by lia.
    rewrite substring_after_header. now rewrite Hp. }
  assert (E2 : strip_data_url payload = payload).
  { unfold strip_data_url. now rewrite Hp. }
  unfold decode_frame. now rewrite E1, E2.
Qed.

Lemma decode_frame_data_url_witness :
  decode_frame Examples.codec (PyStr ("data:image/jpeg;" ++ base64_marker ++ "AAAA"))
  = Some Examples.frame_100.
Proof.
  destruct (decode_frame_data_url Examples.codec "data:image/jpeg;" "AAAA")
    as (_ & _ & H & _); [reflexivity | reflexivity | exact H].
Defined.

End DataUrl.

(** * The model wrapper (model_wrapper.py) *)

Section FaceModelFacts.

Import FaceModel.

(** X14. Whatever the network and the reconstruction do, a mesh that
    [predict] returns is consistent with its counts: [num_vertices] and
    [num_faces] are the lengths of [vertices] and [faces]. A fallback
    mesh has 1000 vertices and 2000 faces, and each of its faces refers
    to existing vertices. *)
Theorem predict_mesh_counts :
  forall self bbox tddfa recon_vers rnd m,
    predict self bbox tddfa recon_vers rnd = Some m ->
    num_vertices m = Z.of_nat (length (vertices m)) /\
    num_faces m = Z.of_nat (length (faces m)) /\
    (fallback m = true ->
     num_vertices m = 1000 /\ num_faces m = 2000 /\
     Forall (triangle_within (num_vertices m)) (faces m)).
Proof.
  intros self bbox tddfa recon_vers rnd m Hp.
  assert (Hfb : let f := _create_fallback_mesh rnd in
                num_vertices f = Z.of_nat (length (vertices f)) /\
                num_faces f = Z.of_nat (length (faces f)) /\
                (fallback f = true ->
                 num_vertices f = 1000 /\ num_faces f = 2000 /\
                 Forall (triangle_within (num_vertices f)) (faces f))).
  { cbv zeta. unfold _create_fallback_mesh.
    cbn [vertices faces num_vertices num_faces fallback].
    rewrite !length_map, !length_seq.
    split; [reflexivity|]. split; [reflexivity|]. intros _.
    split; [reflexivity|]. split; [reflexivity|].
    apply Forall_forall. intros f Hf. apply in_map_iff in Hf.
    destruct Hf as (i & <- & _). unfold triangle_within, randint.
    repeat split; apply Z.mod_pos_bound; reflexivity. }
  assert (Hgen : forall recon,
             let g := _generate_mesh_from_params self recon rnd in
             num_vertices g = Z.of_nat (length (vertices g)) /\
             num_faces g = Z.of_nat (length (faces g)) /\
             (fallback g = true ->
              num_vertices g = 1000 /\ num_faces g = 2000 /\
              Forall (triangle_within (num_vertices g)) (faces g))).
  { intros recon. unfold _generate_mesh_from_params.
    destruct recon as [e|[|v columns]]; try exact Hfb.
    destruct (tri self) as [e|triangles]; [exact Hfb|].
    destruct (vertex_precision self) as [precision|]; [|exact Hfb].
    destruct (np_round rnd precision) as [e|round]; [exact Hfb|].
    cbn [vertices faces num_vertices num_faces fallback].
    rewrite length_map. split; [reflexivity|]. split; [reflexivity|].
    discriminate. }
  revert Hp. unfold predict.
  destruct (negb (is_loaded self) || negb (has_tddfa self)); [discriminate|].
  destruct bbox as [b|]; [|discriminate].
  destruct tddfa as [e|[|params ps] [|roi rs]]; try discriminate.
  intros [= <-]. apply Hgen.
Qed.

(** X15. [predict] returns no mesh exactly when the model is not loaded,
    no box is given, the network raises, or the network returns no
    parameters or no ROI. A failure after that point is not reported:
    [predict] returns the random fallback mesh exactly when something in
    the mesh generation raises, that is when the reconstruction raises or
    yields no vertex, the model's triangles cannot be read, the vertex
    precision cannot be read from the configuration, or [np.round]
    raises on it. Otherwise the mesh has the model's triangles and the
    reconstructed vertices, each coordinate rounded by [np.round]. *)
Theorem predict_failure_modes :
  forall self bbox tddfa recon_vers rnd,
    (predict self bbox tddfa recon_vers rnd = None <->
     is_loaded self = false \/ has_tddfa self = false \/ bbox = None \/
     (exists e, tddfa = TddfaRaises e) \/
     (exists rois, tddfa = TddfaReturns [] rois) \/
     (exists params, tddfa = TddfaReturns params [])) /\
    (forall params ps roi rs,
        is_loaded self = true -> has_tddfa self = true -> bbox <> None ->
        tddfa = TddfaReturns (params :: ps) (roi :: rs) ->
        exists m,
          predict self bbox tddfa recon_vers rnd = Some m /\
          (fallback m = true <->
           (exists e, recon_vers params roi = ReconRaises e) \/
           recon_vers params roi = ReconReturns [] \/
           (exists e, tri self = inl e) \/
           vertex_precision self = None \/
           (exists precision e,
               vertex_precision self = Some precision /\
               np_round rnd precision = inl e)) /\
          (fallback m = true -> m = _create_fallback_mesh rnd) /\
          (forall columns triangles precision round,
              recon_vers params roi = ReconReturns columns ->
              columns <> [] ->
              tri self = inr triangles ->
              vertex_precision self = Some precision ->
              np_round rnd precision = inr round ->
              vertices m = map (round_vertex round) columns /\
              faces m = triangles)).
Proof.
  intros self bbox tddfa recon_vers rnd. split.
  - unfold predict.
    destruct (is_loaded self); cbn [negb orb];
      [|split; [auto | reflexivity]].
    destruct (has_tddfa self); cbn [negb orb];
      [|split; [auto | reflexivity]].
    destruct bbox as [b|]; [|split; [auto 6 | reflexivity]].
    destruct tddfa as [e|[|params ps] [|roi rs]].
    + split; [intros _; do 3 right; left; now exists e | reflexivity].
    + split; [intros _; do 4 right; left; now exists [] | reflexivity].
    + split; [intros _; do 4 right; left; now exists (roi :: rs)
             | reflexivity].
    + split; [intros _; do 5 right; now exists (params :: ps)
             | reflexivity].
    + split; [discriminate|].
      intros [H|[H|[H|[[e H]|[[r H]|[p H]]]]]]; discriminate H.
  - intros params ps roi rs Hl Ht Hb ->.
    unfold predict. rewrite Hl, Ht. cbn [negb orb].
    destruct bbox as [b|]; [|contradiction].
    eexists. split; [reflexivity|].
    unfold _generate_mesh_from_params.
    destruct (recon_vers params roi) as [e|[|v columns]].
    + split; [split; [intros _; left; now exists e | reflexivity]|].
      split; [reflexivity|].
      intros columns triangles precision round H; discriminate H.
    + split; [split; [intros _; right; now left | reflexivity]|].
      split; [reflexivity|].
      intros columns triangles precision round [= <-] H. now contradiction H.
    + destruct (tri self) as [e|triangles].
      { split; [split; [intros _; do 2 right; left; now exists e
                       | reflexivity]|].
        split; [reflexivity|].
        intros columns' triangles' precision' round' _ _ H; discriminate H. }
      destruct (vertex_precision self) as [precision|].
      2:{ split; [split; [intros _; do 3 right; now left | reflexivity]|].
          split; [reflexivity|].
          intros columns' triangles' precision' round' _ _ _ H;
            discriminate H. }
      destruct (np_round rnd precision) as [e|round] eqn:Hround.
      { split; [split; [intros _; do 4 right; now exists precision, e
                       | reflexivity]|].
        split; [reflexivity|].
        intros columns' triangles' precision' round' _ _ _ [= <-] H.
        rewrite Hround in H. discriminate H. }
      split.
      { split; [discriminate|].
        intros [[e H]|[H|[[e H]|[H|(precision' & e & [= <-] & H)]]]];
          try discriminate H.
        rewrite Hround in H. discriminate H. }
      split; [discriminate|].
      intros columns' triangles' precision' round' [= <-] _ [= <-] [= <-] H.
      rewrite Hround in H. injection H as <-. split; reflexivity.
Qed.

End FaceModelFacts.

Lemma predict_mesh_counts_witness :
  exists m,
    FaceModel.predict ModelScenarios.loaded_model (Some (20, 30, 80, 90))
                      ModelScenarios.one_face ModelScenarios.recon_ok
                      ModelScenarios.quiet_numpy = Some m /\
    FaceModel.num_vertices m = Z.of_nat (length (FaceModel.vertices m)).
Proof.
  exists (FaceModel._generate_mesh_from_params
            ModelScenarios.loaded_model
            (ModelScenarios.recon_ok [fl 0] [fl 0])
            ModelScenarios.quiet_numpy).
  split; [reflexivity|].
  apply (predict_mesh_counts
           ModelScenarios.loaded_model (Some (20, 30, 80, 90))
           ModelScenarios.one_face ModelScenarios.recon_ok
           ModelScenarios.quiet_numpy).
  reflexivity.
Defined.

Lemma predict_failure_modes_witness :
  exists m,
    FaceModel.predict ModelScenarios.model_without_bfm (Some (20, 30, 80, 90))
                      ModelScenarios.one_face ModelScenarios.recon_ok
                      ModelScenarios.quiet_numpy = Some m /\
    FaceModel.fallback m = true /\
    m = FaceModel._create_fallback_mesh ModelScenarios.quiet_numpy.
Proof.
  destruct (predict_failure_modes
              ModelScenarios.model_without_bfm (Some (20, 30, 80, 90))
              ModelScenarios.one_face ModelScenarios.recon_ok
              ModelScenarios.quiet_numpy) as [_ H].
  destruct (H [fl 0] [] [fl 0] []) as (m & Hp & Hfb & Hmesh & _);
    [reflexivity | reflexivity | discriminate | reflexivity |].
  assert (Hf : FaceModel.fallback m = true).
  { apply Hfb. do 2 right. left.
    exists (ModelError "AttributeError"). reflexivity. }
  exists m. split; [exact Hp|]. split; [exact Hf | exact (Hmesh Hf)].
Defined.

(** With the triangles and the precision in place, the mesh carries the
    reconstructed vertices and the model's triangle. *)
Example predict_reconstructed_mesh :
  option_map FaceModel.faces
    (FaceModel.predict ModelScenarios.loaded_model (Some (20, 30, 80, 90))
                       ModelScenarios.one_face ModelScenarios.recon_ok
                       ModelScenarios.quiet_numpy)
  = Some [ (0, 1, 2) ].
Proof. reflexivity. Qed.

(** * Misconfiguration and the model inside the handlers (app.py) *)

Section HandlerEdges.

Import FramePreprocessor App Outcomes.

Variable codec : Codec.

(** X16. A reconstruction failure is not reported to the client. When the
    model is the wrapper of model_wrapper.py, the frame has a face box
    and a non-empty crop, the network returns parameters, and the
    reconstruction raises, [process_frame] sends a [mesh_update] carrying
    the random fallback mesh and counts the frame as a success. *)
Theorem reconstruction_failure_sends_fallback_mesh :
  forall env frame s started model tddfa recon_vers rnd
         bbox roi params ps roi_box rs e,
    PerformanceLogger.log_interval (perf_logger s) <> 0 ->
    PerformanceLogger.start_time (perf_logger s) = Some started ->
    fst (FaceDetector.detect_face
           (if enable_tracking (config s)
               && FaceDetector.should_redetect (face_detector s)
                    (redetect_interval (config s))
            then FaceDetector.reset_tracking (face_detector s)
            else face_detector s)
           frame (enable_tracking (config s)) (detection env)) = Some bbox ->
    FaceDetector.extract_face_roi (cv2_resize env) frame bbox
                                  (input_resolution (config s))
                                  default_padding = inr (Some roi) ->
    prediction env = FaceModel.prediction model bbox tddfa recon_vers rnd ->
    FaceModel.is_loaded model = true ->
    FaceModel.has_tddfa model = true ->
    tddfa = FaceModel.TddfaReturns (params :: ps) (roi_box :: rs) ->
    recon_vers params roi_box = FaceModel.ReconRaises e ->
    let r := process_frame env frame s in
    snd r = None /\
    outbox (fst r)
    = outbox s
      ++ [mesh_update
            (FaceModel.to_mesh (FaceModel._create_fallback_mesh rnd))
            (PerformanceLogger.get_current_metrics
               (host_cpu env) (host_mem env) (perf_logger s))
            true] /\
    PerformanceLogger.frame_count (perf_logger (fst r))
    = PerformanceLogger.frame_count (perf_logger s) + 1 /\
    dropped (fst r) = dropped s.
Proof.
  intros env frame s started model tddfa recon_vers rnd
         bbox roi params ps roi_box rs e
         Hli Hs Hdet Hroi Hpred Hl Ht Htd Hrec r.
  assert (Hp : prediction env
               = PredictReturns
                   (Some (FaceModel.to_mesh
                            (FaceModel._create_fallback_mesh rnd)))).
  { rewrite Hpred. unfold FaceModel.prediction, FaceModel.predict.
    rewrite Hl, Ht, Htd. cbn [negb orb option_map].
    unfold FaceModel._generate_mesh_from_params. now rewrite Hrec. }
  subst r. unfold process_frame. cbv zeta.
  destruct (FaceDetector.detect_face _ frame _ _) as [b d].
  cbn [fst] in Hdet. subst b.
  rewrite Hroi, Hp.
  match goal with
  | |- context [emit ?ev ?s0] =>
      destruct (process_frame_finish env s0 ev true)
        as (H1 & H2 & H3 & _)
  end.
  { intros p b. now apply end_frame_no_raise. }
  split; [exact H1|]. split; [exact H2|].
  destruct (started_frame_counted_once (w_end env) true (w_end env) true
              (perf_logger s) started Hli Hs) as (_ & Hfc & Hdf & _).
  unfold dropped. rewrite H3.
  cbn [perf_logger emit with_bbox with_detector].
  split; [exact Hfc|exact Hdf].
Qed.

(** X17. With tracking disabled every processed frame consults the
    network: the detector state after [process_frame] and the box left in
    [last_face_bbox] are those of a full detection on this frame,
    whatever box the detector had stored, and the staleness counter does
    not grow. *)
Theorem tracking_disabled_always_detects :
  forall env frame s,
    enable_tracking (config s) = false ->
    let s' := fst (process_frame env frame s) in
    let found := FaceDetector._detect_with_mtcnn (face_detector s) frame
                                                 (detection env) in
    face_detector s'
    = snd (FaceDetector.detect_face (face_detector s) frame false
                                    (detection env)) /\
    fst (FaceDetector.detect_face (face_detector s) frame false (detection env))
    = found /\
    last_face_bbox s'
    = match found with
      | Some bbox => Some bbox
      | None => last_face_bbox s
      end /\
    FaceDetector.frames_since_detection (face_detector s')
    = match found with
      | Some _ => 0
      | None => FaceDetector.frames_since_detection (face_detector s)
      end.
Proof.
  intros env frame s Hoff s' found. subst s' found.
  rewrite process_frame_detector, process_frame_last_face_bbox, Hoff.
  cbn [andb]. unfold FaceDetector.detect_face. cbn [andb].
  unfold FaceDetector.full_detection.
  destruct (FaceDetector._detect_with_mtcnn (face_detector s) frame
                                            (detection env));
    cbn [fst snd FaceDetector.frames_since_detection];
    repeat split; reflexivity.
Qed.

(** X18. A stride of 0 stops every frame: the modulo raises, the handler
    catches it, counts the frame as dropped, submits nothing and answers
    with one error event carrying the [ZeroDivisionError]; it does not
    raise (log interval non-zero). *)
Theorem zero_stride_rejects_every_frame :
  forall env data s,
    frame_skip (config s) = 0 ->
    PerformanceLogger.log_interval (perf_logger s) <> 0 ->
    let r := handle_frame codec env data s in
    snd r = None /\
    outbox (fst r) = outbox s ++ [error (StrOf ZeroDivisionError)] /\
    thread_pool (fst r) = thread_pool s /\
    dropped (fst r) = dropped s + 1 /\
    frame_counter (fst r) = frame_counter s + 1.
Proof.
  intros env data s HS Hli r. subst r.
  rewrite handle_frame_zero_stride by assumption.
  destruct (failed_sample_at_fields (at_except env) env s)
    as (_ & _ & F3 & F4 & F5 & F6 & _).
  unfold dropped in *. cbn [fst snd emit outbox thread_pool perf_logger
                            frame_counter].
  rewrite F3, F4, F5, F6. auto.
Qed.


End HandlerEdges.

Lemma reconstruction_failure_sends_fallback_mesh_witness :
  snd (App.process_frame ModelScenarios.worker_with_failing_recon
                         Examples.frame_100
                         Scenarios.server_with_queued_frame) = None.
Proof.
  eapply (reconstruction_failure_sends_fallback_mesh
            ModelScenarios.worker_with_failing_recon Examples.frame_100
            Scenarios.server_with_queued_frame (Q2Qc (10 # 1000))
            ModelScenarios.loaded_model ModelScenarios.one_face
            ModelScenarios.recon_fails ModelScenarios.quiet_numpy
            (20, 30, 80, 90));
    first [ discriminate | reflexivity ].
Defined.

Lemma tracking_disabled_always_detects_witness :
  let s := App.initialize_components
             (App.mkConfig 1 false 30 1 256 (Q2Qc (9 # 10)) 30) (fl 0) in
  App.last_face_bbox
    (fst (App.process_frame Scenarios.worker_env Examples.frame_100 s))
  = Some (20, 30, 80, 90).
Proof.
  apply (tracking_disabled_always_detects
           Scenarios.worker_env Examples.frame_100
           (App.initialize_components
              (App.mkConfig 1 false 30 1 256 (Q2Qc (9 # 10)) 30) (fl 0))).
  reflexivity.
Defined.

Lemma zero_stride_rejects_every_frame_witness :
  snd (App.handle_frame Examples.codec (Examples.handler_env (fl 1))
                        Examples.good_payload (Examples.server_with_stride 0))
  = None.
Proof.
  apply (zero_stride_rejects_every_frame
           Examples.codec (Examples.handler_env (fl 1)) Examples.good_payload
           (Examples.server_with_stride 0));
    [reflexivity | discriminate].
Defined.


(** * Loading the model (model_wrapper.py) *)

Section ModelLoaderFacts.

Import ModelLoader.

(** X20. A wrapper whose construction succeeded is loaded and holds a
    backend, so [predict] never answers "Model not loaded" for it. The
    backend is chosen by the configured [use_onnx] (ONNX when the key is
    absent), not by what is found: when ONNX is requested and the model
    file is in neither place, the ONNX backend is still the one built,
    with no model path, while [use_onnx] is switched off, so that
    [get_info] reports the backend "PyTorch". *)
Theorem loaded_model_backend :
  forall inst cfg self,
    __init__ inst cfg = inr self ->
    is_loaded self = true /\
    tddfa self <> None /\
    (onnx_requested cfg = true ->
     exists path,
       tddfa self = Some (TddfaOnnx path) /\
       (path = None <->
        weights_onnx_found inst = false /\ models_onnx_found inst = false) /\
       (path = None -> get_info_backend self = "PyTorch"%string) /\
       (path <> None -> get_info_backend self = "ONNX"%string)) /\
    (onnx_requested cfg = false ->
     tddfa self
     = Some (TddfaTorch (negb (String.eqb (cfg_device cfg) "cpu"))) /\
     get_info_backend self = "PyTorch"%string).
Proof.
  intros inst cfg self. unfold __init__, _load_model, onnx_requested.
  destruct (tddfa_config_found inst); cbn [negb]; [|discriminate].
  destruct (tddfa_available inst); cbn [negb]; [|discriminate].
  cbn [use_onnx device].
  destruct (match cfg_use_onnx cfg with Some b => b | None => true end).
  - unfold _get_onnx_model_path.
    destruct (weights_onnx_found inst).
    + destruct (constructor_raises inst (TddfaOnnx (Some InWeights)));
        [discriminate|].
      intros [= <-]. cbn.
      split; [reflexivity|]. split; [discriminate|].
      split; [|discriminate]. intros _. exists (Some InWeights).
      split; [reflexivity|]. split; [split; [discriminate|intros [H _]; discriminate H]|].
      split; [discriminate|reflexivity].
    + destruct (models_onnx_found inst).
      * destruct (constructor_raises inst (TddfaOnnx (Some InModels)));
          [discriminate|].
        intros [= <-]. cbn.
        split; [reflexivity|]. split; [discriminate|].
        split; [|discriminate]. intros _. exists (Some InModels).
        split; [reflexivity|].
        split; [split; [discriminate|intros [_ H]; discriminate H]|].
        split; [discriminate|reflexivity].
      * destruct (constructor_raises inst (TddfaOnnx None)); [discriminate|].
        intros [= <-]. cbn.
        split; [reflexivity|]. split; [discriminate|].
        split; [|discriminate]. intros _. exists None.
        split; [reflexivity|]. split; [split; auto|].
        split; [reflexivity|]. intros H. now contradiction H.
  - destruct (constructor_raises inst (TddfaTorch _)); [discriminate|].
    intros [= <-]. cbn.
    split; [reflexivity|]. split; [discriminate|].
    split; [discriminate|]. intros _. split; reflexivity.
Qed.

End ModelLoaderFacts.

Lemma loaded_model_backend_witness :
  ModelLoader.__init__ LoaderScenarios.install_without_onnx
                       LoaderScenarios.cpu_config
  = inr LoaderScenarios.loaded_without_onnx /\
  ModelLoader.is_loaded LoaderScenarios.loaded_without_onnx = true.
Proof.
  split; [reflexivity|].
  apply (loaded_model_backend
           LoaderScenarios.install_without_onnx LoaderScenarios.cpu_config
           LoaderScenarios.loaded_without_onnx).
  reflexivity.
Defined.

(** * What the server keeps invariant (app.py) *)

Section ServerInvariants.

Import FramePreprocessor App ServerInvariant.

Variable codec : Codec.

(** The logger as the handlers leave it: the one they found, after some
    calls of [start_frame] and [end_frame]. *)
Section LoggerClosed.

Variable P : PerformanceLogger.t -> Prop.
Hypothesis P_start : forall clock l, P l -> P (PerformanceLogger.start_frame clock l).
Hypothesis P_end :
  forall p success l, P l -> P (fst (PerformanceLogger.end_frame p success l)).

Ltac after_end_frame :=
  match goal with
  | |- context [PerformanceLogger.end_frame ?p ?b ?l] =>
      let H := fresh "Hend" in
      assert (H : P (fst (PerformanceLogger.end_frame p b l)))
        by (apply P_end; cbn; auto);
      destruct (PerformanceLogger.end_frame p b l) as [? [?|]];
      cbn [fst] in H; cbn [perf_logger with_logger emit]
  end.

Lemma handle_frame_logger env data s :
  P (perf_logger s) -> P (perf_logger (fst (handle_frame codec env data s))).
Proof.
  intros HP. unfold handle_frame, end_frame_then, handle_frame_except, returns.
  cbv zeta.
  assert (H0 : P (PerformanceLogger.start_frame (at_start env) (perf_logger s)))
    by now apply P_start.
  cbn [perf_logger with_logger with_counter config frame_counter].
  destruct (py_mod _ _) as [e|r].
  - after_end_frame; cbn; assumption.
  - destruct (negb (r =? 0)).
    + after_end_frame; [after_end_frame; cbn; assumption | cbn; assumption].
    + destruct data as [[image|]|b|].
      * destruct (decode_frame codec image); [cbn; assumption|].
        after_end_frame; [after_end_frame; cbn; assumption | cbn; assumption].
      * after_end_frame; [after_end_frame; cbn; assumption | cbn; assumption].
      * destruct (decode_binary_frame codec b); [cbn; assumption|].
        after_end_frame; [after_end_frame; cbn; assumption | cbn; assumption].
      * after_end_frame; [after_end_frame; cbn; assumption | cbn; assumption].
Qed.

Lemma process_frame_logger env frame s :
  P (perf_logger s) -> P (perf_logger (fst (process_frame env frame s))).
Proof.
  intros HP. unfold process_frame, end_frame_then, process_frame_except, returns.
  cbv zeta.
  destruct (FaceDetector.detect_face _ frame _ _) as [[bbox|] d];
    cbn [perf_logger with_logger with_detector with_bbox emit].
  - destruct (FaceDetector.extract_face_roi _ frame bbox _ _) as [e|[roi|]].
    + after_end_frame; cbn; assumption.
    + destruct (prediction env) as [e|[mesh|]].
      * after_end_frame; cbn; assumption.
      * after_end_frame; [after_end_frame; cbn; assumption | cbn; assumption].
      * after_end_frame; [after_end_frame; cbn; assumption | cbn; assumption].
    + after_end_frame; [after_end_frame; cbn; assumption | cbn; assumption].
  - after_end_frame; [after_end_frame; cbn; assumption | cbn; assumption].
Qed.

End LoggerClosed.

Lemma handle_frame_keeps env data s :
  config (fst (handle_frame codec env data s)) = config s /\
  face_detector (fst (handle_frame codec env data s)) = face_detector s /\
  frame_counter (fst (handle_frame codec env data s)) = frame_counter s + 1.
Proof.
  unfold handle_frame, end_frame_then, handle_frame_except, returns.
  cbv zeta. case_matches; cbn; auto.
Qed.

Lemma process_frame_keeps env frame s :
  config (fst (process_frame env frame s)) = config s /\
  frame_counter (fst (process_frame env frame s)) = frame_counter s.
Proof.
  unfold process_frame, end_frame_then, process_frame_except, returns.
  cbv zeta. case_matches; cbn; auto.
Qed.

Lemma logger_ok_start interval clock l :
  logger_ok interval l ->
  logger_ok interval (PerformanceLogger.start_frame clock l).
Proof. intros H. exact H. Qed.

Lemma logger_ok_end interval p success l :
  logger_ok interval l ->
  logger_ok interval (fst (PerformanceLogger.end_frame p success l)).
Proof.
  intros (Hw & Hm & Hi & Hf & Hd).
  destruct (PerformanceLogger.start_time l) as [started|] eqn:Hs.
  - destruct (end_frame_fields p success l started Hs)
      as (Hli & _ & Hpt & Hfc & Hdf & _).
    unfold logger_ok. rewrite Hli, Hpt, Hfc, Hdf.
    split; [now apply end_frame_windows_ok|].
    unfold PerformanceLogger.update_metrics.
    destruct success; cbn; repeat split; try assumption; lia.
  - unfold PerformanceLogger.end_frame. rewrite Hs. cbn [fst].
    unfold logger_ok. auto.
Qed.

Lemma step_server_ok cfg s s' :
  step codec s s' -> server_ok cfg s -> server_ok cfg s'.
Proof.
  intros Hstep Hok.
  pose proof (step_pool_bounded codec s s' Hstep) as Hpool.
  destruct Hok as (Hc & Hn & Hd & Hm & Hw & Hl & Hi & Hf & Hdr & Hp).
  destruct (Hpool Hp) as [Hp' _].
  assert (Hlog : logger_ok (cfg_log_interval cfg) (perf_logger s))
    by (unfold logger_ok; auto).
  destruct Hstep as [env data s | s pool Hs | env i s frame pool Hfin].
  - destruct (handle_frame_keeps env data s) as (E1 & E2 & E3).
    destruct (handle_frame_logger (logger_ok (cfg_log_interval cfg))
                (logger_ok_start _) (logger_ok_end _) env data s Hlog)
      as (L1 & L2 & L3 & L4 & L5).
    unfold server_ok. rewrite E1, E2, E3.
    repeat split; try assumption; try lia; try apply Hd; try apply L1.
  - unfold server_ok. cbn [config frame_counter face_detector perf_logger
                           thread_pool with_pool] in *.
    repeat split; try assumption; try apply Hd; try apply Hw.
  - destruct (process_frame_keeps env frame (with_pool pool s)) as (E1 & E3).
    destruct (process_frame_logger (logger_ok (cfg_log_interval cfg))
                (logger_ok_end _) env frame
                (with_pool pool s) Hlog)
      as (L1 & L2 & L3 & L4 & L5).
    assert (Hdet : Traces.detector_ok
                     (face_detector (fst (process_frame env frame
                                                        (with_pool pool s))))
                   /\ FaceDetector.min_confidence
                        (face_detector (fst (process_frame env frame
                                                           (with_pool pool s))))
                      = min_confidence cfg).
    { rewrite process_frame_detector.
      cbn [config face_detector with_pool].
      set (d := if _ && _ then _ else _).
      assert (Hd0 : Traces.detector_ok d
                    /\ FaceDetector.min_confidence d = min_confidence cfg).
      { subst d. destruct (_ && _); [|auto].
        split; [|exact Hm].
        unfold Traces.detector_ok. cbn.
        repeat split; try discriminate; lia. }
      destruct Hd0 as [Hd0 Hm0]. split; [now apply detect_face_ok|].
      rewrite <- Hm0.
      unfold FaceDetector.detect_face, FaceDetector.full_detection.
      case_matches; reflexivity. }
    destruct Hdet as [Hd' Hm'].
    unfold server_ok. rewrite E1, E3.
    cbn [config frame_counter with_pool].
    repeat split; try assumption; try apply Hd'; try apply L1.
Qed.

(** X21. In every state the server can reach from start-up, whatever
    frames arrive and however workers interleave: the configuration is
    the one it started with, the counters are not negative, tracking is
    active only with a stored box whose coordinates are not negative, the
    detector keeps its confidence threshold, both metric windows hold the
    same number of samples and at most 30, and no more tasks run than the
    pool has workers. *)
Theorem reachable_server_invariant :
  forall cfg clock s,
    reachable codec (initialize_components cfg clock) s ->
    server_ok cfg s /\
    ThreadPool.max_workers (thread_pool s) = thread_pool_size cfg.
Proof.
  intros cfg clock s Hreach.
  induction Hreach as [|s s' _ [IH IHm] Hstep].
  - split; [|reflexivity].
    unfold server_ok, Traces.detector_ok, LoggerTraces.windows_ok,
      ThreadPool.pool_bounded.
    cbn. repeat split; try discriminate; lia.
  - split; [now apply (step_server_ok cfg s s')|].
    destruct IH as (_ & _ & _ & _ & _ & _ & _ & _ & _ & Hp).
    destruct (step_pool_bounded codec s s' Hstep Hp) as [_ Hm].
    congruence.
Qed.

End ServerInvariants.

Lemma reachable_server_invariant_witness :
  ThreadPool.max_workers
    (App.thread_pool
       (App.handle_frames Examples.codec Examples.two_frames
                          (Examples.server_with_stride 1))) = 1%nat.
Proof.
  apply (reachable_server_invariant
           Examples.codec
           (App.mkConfig 1 true 30 1 256 (Q2Qc (9 # 10)) 30) (fl 0)).
  unfold Examples.two_frames. cbn [App.handle_frames].
  eapply App.reach_step; [eapply App.reach_step; [apply App.reach_init|]|];
    apply App.step_frame.
Defined.
